(** * UKGovWebsiteContentScraper: the Fetcher and the Synthesizer

    A shallow embedding of [scrape_urls.py], [generate_synthetic_data.py]
    and [models.py].  Python values decoded from JSON are the inductive
    [json]; Python dictionaries are finite maps; the outside world (HTTP,
    the clock, the language-model service, pydantic, html2text) is given
    by type classes of operations, and its state is threaded through the
    code explicitly. *)

From stdpp Require Import gmap strings list fin_maps.
From Stdlib Require Import ZArith QArith Lqa DecimalString.


(** ** Python values *)

Module Py.

(** What [response.json()] can return.  JSON floats are left out: no part
    of the two scripts computes with them. *)
#[warnings="-register-all"]
Inductive json : Type :=
| JNull
| JBool (b : bool)
| JInt (z : Z)
| JStr (s : string)
| JList (l : list json)
| JDict (d : gmap string json).

(** The exceptions the scripts can meet. *)
Inductive exn : Type :=
| AttributeError
| TypeError
| KeyError
| ValueError
| ValidationError
| ZeroDivisionError.

(** Result of an expression that may raise. *)
Inductive res (A : Type) : Type :=
| Ok (a : A)
| Raise (e : exn).
Arguments Ok {A} a.
Arguments Raise {A} e.

(** How a script ends: it returns, it calls [sys.exit(code)], or an
    exception nobody catches ends the interpreter. *)
Inductive outcome (A : Type) : Type :=
| Returned (a : A)
| Exited (code : Z)
| Uncaught (e : exn).
Arguments Returned {A} a.
Arguments Exited {A} code.
Arguments Uncaught {A} e.

Definition nl : string := String (Ascii.ascii_of_nat 10) EmptyString.

(** [bool(v)]: Python truthiness. *)
Definition truthy (v : json) : bool :=
  match v with
  | JNull => false
  | JBool b => b
  | JInt z => negb (Z.eqb z 0)
  | JStr s => negb (String.eqb s "")
  | JList l => match l with [] => false | _ => true end
  | JDict d => negb (bool_decide (d = ∅))
  end.

(** [bool(d.get(k))]; a missing key gives [None], which is false. *)
Definition truthy_get (d : gmap string json) (k : string) : bool :=
  match d !! k with
  | Some v => truthy v
  | None => false
  end.

(** [d.get(k) == s] for a string literal [s]. *)
Definition get_is (d : gmap string json) (k s : string) : bool :=
  match d !! k with
  | Some (JStr t) => String.eqb t s
  | _ => false
  end.

(** [d.get(k) in l] for a list [l] of string literals. *)
Definition get_in (d : gmap string json) (k : string) (l : list string) : bool :=
  existsb (get_is d k) l.
#[global] Arguments get_in : simpl never.

(** [needle in s] on strings: substring test. *)
Fixpoint substringb (needle s : string) : bool :=
  String.prefix needle s ||
  match s with
  | EmptyString => false
  | String _ s' => substringb needle s'
  end.

(** [k in v] for a string literal [k]: key of a dict, element of a list,
    substring of a string; [TypeError] for the values that are not
    containers. *)
Definition contains (k : string) (v : json) : res bool :=
  match v with
  | JDict d => Ok (bool_decide (is_Some (d !! k)))
  | JList l => Ok (existsb (fun x => match x with JStr t => String.eqb t k | _ => false end) l)
  | JStr s => Ok (substringb k s)
  | _ => Raise TypeError
  end.

(** [v[k]] for a string literal [k]. Only a dict can be indexed by a
    string; [contains] has been checked before in the code, so the key is
    there when [v] is a dict. *)
Definition getitem (v : json) (k : string) : res json :=
  match v with
  | JDict d => match d !! k with Some x => Ok x | None => Raise KeyError end
  | _ => Raise TypeError
  end.

(** Python's built-in [repr] of a list or a dict, which [format] falls back
    on; it is not part of the repository. *)
Class Builtins : Type := {
  py_repr : json -> string
}.

(** What an f-string puts for [{v}]. *)
Definition format `{Builtins} (v : json) : string :=
  match v with
  | JNull => "None"
  | JBool true => "True"
  | JBool false => "False"
  | JInt z => NilZero.string_of_int (Z.to_int z)
  | JStr s => s
  | _ => py_repr v
  end.

(** [for x in v]: the elements a loop over [v] visits. A string gives its
    characters, a dict its keys. *)
Definition iterate (v : json) : res (list json) :=
  match v with
  | JList l => Ok l
  | JStr s => Ok ((fun c => JStr (String c EmptyString)) <$> String.list_ascii_of_string s)
  | JDict d => Ok ((fun kv => JStr (fst kv)) <$> map_to_list d)
  | _ => Raise TypeError
  end.

#[global] Instance res_bind : MBind res :=
  fun A B (f : A -> res B) (m : res A) =>
    match m with
    | Ok a => f a
    | Raise e => Raise e
    end.
#[global] Instance res_ret : MRet res := fun A (a : A) => Ok a.

(** [range(0, stop, step)] for a positive [step]. *)
Definition range0 (stop step : nat) : list nat :=
  (fun k => k * step)%nat <$> seq 0 (Nat.div (stop + (step - 1)) step).

(** [l[i:j]] for [i <= j]. *)
Definition slice {A} (l : list A) (i j : nat) : list A :=
  take (j - i) (drop i l).

End Py.
Import Py.

(** ** models.py *)

Module Models.

Record GovPageDetails : Type := {
  body : option string;
  external_related_links : list json;
  current : option bool;
  ended_on : option string;
  parts : option (list json)
}.

Record GovPageLink : Type := {
  link_title : string;
  link_base_path : string;
  link_api_path : string;
  link_web_url : string;
  link_locale : string
}.

Record GovPageLinks : Type := {
  organisations : option (list GovPageLink);
  parent : option (list GovPageLink);
  available_translations : option (list GovPageLink)
}.

Record Snippet : Type := {
  well_written_snippet : string;
  badly_written_snippet : string
}.

Record ArticleSnippets : Type := {
  snippets : list Snippet
}.

Record SyntheticData : Type := {
  poorly_written_article : string;
  article_snippets : option ArticleSnippets
}.

(** [datetime] values are kept as their text. *)
Definition datetime : Type := string.

Record GovPage : Type := {
  title : string;
  base_path : string;
  content_id : string;
  description : option string;
  document_type : string;
  schema_name : string;
  locale : string;
  api_path : option string;
  web_url : option string;
  details : GovPageDetails;
  links : GovPageLinks;
  public_updated_at : option datetime;
  first_published_at : option datetime;
  withdrawn : bool;
  synthetic_data : option SyntheticData
}.

(** [page.details.body = b] *)
Definition set_body (page : GovPage) (b : option string) : GovPage :=
  {| title := title page; base_path := base_path page;
     content_id := content_id page; description := description page;
     document_type := document_type page; schema_name := schema_name page;
     locale := locale page; api_path := api_path page;
     web_url := web_url page;
     details := {| body := b;
                   external_related_links := external_related_links (details page);
                   current := current (details page);
                   ended_on := ended_on (details page);
                   parts := parts (details page) |};
     links := links page;
     public_updated_at := public_updated_at page;
     first_published_at := first_published_at page;
     withdrawn := withdrawn page;
     synthetic_data := synthetic_data page |}.

(** [page.synthetic_data = sd] *)
Definition set_synthetic_data (page : GovPage) (sd : option SyntheticData) : GovPage :=
  {| title := title page; base_path := base_path page;
     content_id := content_id page; description := description page;
     document_type := document_type page; schema_name := schema_name page;
     locale := locale page; api_path := api_path page;
     web_url := web_url page;
     details := details page;
     links := links page;
     public_updated_at := public_updated_at page;
     first_published_at := first_published_at page;
     withdrawn := withdrawn page;
     synthetic_data := sd |}.

(** [bool(page.details.body)] *)
Definition has_body (page : GovPage) : bool :=
  match body (details page) with
  | Some s => negb (String.eqb s "")
  | None => false
  end.

End Models.
Import Models.

(** ** scrape_urls.py *)

Module Scrape.

(** The libraries the Fetcher calls: pydantic's [GovPage( **response )]
    ([None] when it raises [ValidationError]) and html2text's
    [HTML2Text.handle] followed by [str.strip]. *)
Class Libraries : Type := {
  GovPage_validate : gmap string json -> option GovPage;
  html2text_handle : string -> string;
  py_strip : string -> string
}.

(** An HTTP response as the code reads it: the status and what
    [response.json()] gives ([None] when the body is not JSON, which
    [requests] reports as a [RequestException]). *)
Record Response : Type := {
  status_code : Z;
  json_body : option json
}.

(** [requests.get] either raises a [RequestException] or answers. *)
Inductive get_result : Type :=
| GetRaises
| GetResponse (r : Response).

(** The network and the clock. [clock w] is what [time.time()] reads in
    [w]; seconds are rationals. *)
Class Network : Type := {
  world : Type;
  requests_get : string -> world -> get_result * world;
  clock : world -> Q;
  time_sleep : Q -> world -> world
}.

(** What the run does to the outside, in order. *)
Inductive event : Type :=
| EvBatchStart (t : Q)
| EvGet (url : string)
| EvSleep (secs : Q).

Record state `{Network} : Type := {
  st_world : world;
  st_trace : list event
}.

Section Fetcher.
Context `{Builtins} `{Libraries} `{Network}.

Definition log (e : event) (st : state) : state :=
  {| st_world := st_world st; st_trace := st_trace st ++ [e] |}.

Definition do_get (url : string) (st : state) : get_result * state :=
  let (r, w) := requests_get url (st_world st) in
  (r, {| st_world := w; st_trace := st_trace st ++ [EvGet url] |}).

Definition do_sleep (secs : Q) (st : state) : state :=
  {| st_world := time_sleep secs (st_world st);
     st_trace := st_trace st ++ [EvSleep secs] |}.

(** [response.raise_for_status()] raises for 4xx and 5xx. *)
Definition raise_for_status (r : Response) : bool :=
  (400 <=? status_code r)%Z && (status_code r <? 600)%Z.

Definition api_url (path : string) : string :=
  "https://www.gov.uk/api/content" +:+ path.

Definition result : Type := string * option (gmap string json).

(** Lines 52-57: the request, sent again once after five seconds when
    the answer is 429. *)
Definition get_with_retry (path : string) (st : state) : get_result * state :=
  match do_get (api_url path) st with
  | (GetResponse response, st1) =>
      if (status_code response =? 429)%Z
      then do_get (api_url path) (do_sleep 5 st1)
      else (GetResponse response, st1)
  | (GetRaises, st1) => (GetRaises, st1)
  end.

(** The body of the loop over a batch, lines 51-72: [Ok] is the pair
    appended to [results]; [Raise] is an exception the [except] clause
    does not catch ([data.get] on a value that is not a dict). *)
Definition query_path (path : string) (st : state) : res result * state :=
  match get_with_retry path st with
  | (GetRaises, st1) => (Ok (path, None), st1)
  | (GetResponse response, st1) =>
      if raise_for_status response then (Ok (path, None), st1)
      else
        match json_body response with
        | None => (Ok (path, None), st1)
        | Some (JDict data) =>
            if get_in data "document_type" ["placeholder"; "redirect"]
            then (Ok (path, None), st1)
            else (Ok (path, Some data), st1)
        | Some _ => (Raise AttributeError, st1)
        end
  end.

(** [for path in batch: ...] *)
Fixpoint query_batch (batch : list string) (results : list result) (st : state)
  : res (list result) * state :=
  match batch with
  | [] => (Ok results, st)
  | path :: rest =>
      match query_path path st with
      | (Ok r, st1) => query_batch rest (results ++ [r]) st1
      | (Raise e, st1) => (Raise e, st1)
      end
  end.

(** Lines 74-77: pad the batch to one second. *)
Definition throttle (batch_start : Q) (st : state) : state :=
  let batch_duration := (clock (st_world st) - batch_start)%Q in
  if Qlt_le_dec batch_duration 1 then do_sleep (1 - batch_duration)%Q st else st.

(** [for i in range(0, len(paths), batch_size): ...] *)
Fixpoint batch_loop (starts : list nat) (paths : list string) (batch_size : nat)
  (results : list result) (st : state) : res (list result) * state :=
  match starts with
  | [] => (Ok results, st)
  | i :: later =>
      let batch := slice paths i (i + batch_size) in
      let batch_start := clock (st_world st) in
      match query_batch batch results (log (EvBatchStart batch_start) st) with
      | (Ok results1, st1) =>
          batch_loop later paths batch_size results1 (throttle batch_start st1)
      | (Raise e, st1) => (Raise e, st1)
      end
  end.

(** [range] refuses a zero step. *)
Definition batch_query_govuk_api (paths : list string) (batch_size : nat) (st : state)
  : res (list result) * state :=
  match batch_size with
  | O => (Raise ValueError, st)
  | _ => batch_loop (range0 (length paths) batch_size) paths batch_size [] st
  end.

Definition convert_html_to_markdown (html_content : string) : string :=
  py_strip (html2text_handle html_content).

(** Lines 126-128, one turn of [for part in parts]. *)
Definition add_part (combined_body : string) (part : json) : res string :=
  match part with
  | JDict p =>
      if truthy_get p "body" then
        let heading :=
          nl +:+ nl +:+ "## " +:+
          format (default (JStr "Untitled Section") (p !! "title")) +:+ nl +:+ nl in
        match p !! "body" with
        | Some (JStr b) => Ok ((combined_body +:+ heading) +:+ b)
        | _ => Raise TypeError
        end
      else Ok combined_body
  | _ => Raise AttributeError
  end.

Fixpoint combine_parts (combined_body : string) (parts : list json) : res string :=
  match parts with
  | [] => Ok combined_body
  | part :: rest => s ← add_part combined_body part; combine_parts s rest
  end.

(** Lines 122-129: the response after the guide's parts are merged. *)
Definition normalize_guide (response : gmap string json) : res (gmap string json) :=
  if get_is response "document_type" "guide" then
    has_parts ← contains "parts" (default (JDict ∅) (response !! "details"));
    if (has_parts : bool) then
      details ← getitem (JDict response) "details";
      parts ← getitem details "parts";
      l ← iterate parts;
      combined_body ← combine_parts "" l;
      match details with
      | JDict d => Ok (<["details" := JDict (<["body" := JStr combined_body]> d)]> response)
      | _ => Raise TypeError
      end
    else Ok response
  else Ok response.

(** [response['details']['body']] when it is there. *)
Definition stored_body (response : gmap string json) : option json :=
  match response !! "details" with
  | Some (JDict d) => d !! "body"
  | _ => None
  end.

(** What the [try] block of [process_pages] comes to for one response. *)
Inductive tried : Type :=
| PageOk (gov_page : GovPage)
| NoBody
| Failed (e : exn).

(** Lines 112-151. The warnings about missing and dropped fields only
    log. *)
Definition try_page (response : gmap string json) : tried :=
  match normalize_guide response with
  | Raise e => Failed e
  | Ok response' =>
      match GovPage_validate response' with
      | None => Failed ValidationError
      | Some gov_page =>
          match body (details gov_page) with
          | Some b =>
              if negb (String.eqb b "")
              then PageOk (set_body gov_page (Some (convert_html_to_markdown b)))
              else NoBody
          | None => NoBody
          end
      end
  end.

Definition SKIP_TYPES : list string := ["government"; "mainstream_browse_page"].

(** [response.get('document_type')] once it is known to be a string. *)
Definition doc_type_of (response : gmap string json) : string :=
  match response !! "document_type" with
  | Some (JStr t) => t
  | _ => ""
  end.

(** [for path, response in results: ...], lines 101-156. Both the
    missing-body branch and the [except] clause call [sys.exit(1)]. *)
Fixpoint process_results (results : list result) (gov_pages : list GovPage)
  (skipped_types : gmap string nat) : outcome (list GovPage * gmap string nat) :=
  match results with
  | [] => Returned (gov_pages, skipped_types)
  | (path, None) :: rest => process_results rest gov_pages skipped_types
  | (path, Some response) :: rest =>
      if bool_decide (response = ∅) then process_results rest gov_pages skipped_types
      else if get_in response "document_type" SKIP_TYPES then
        let doc_type := doc_type_of response in
        process_results rest gov_pages
          (<[doc_type := (default 0 (skipped_types !! doc_type) + 1)%nat]> skipped_types)
      else
        match try_page response with
        | PageOk gov_page => process_results rest (gov_pages ++ [gov_page]) skipped_types
        | NoBody => Exited 1
        | Failed _ => Exited 1
        end
  end.

(** A row of the CSV file: its [Path] cell and the other cells. *)
Record Row : Type := {
  Path : string;
  other_cells : list string
}.

Definition DataFrame : Type := list Row.

Definition process_pages (df : DataFrame) (st : state)
  : outcome (list GovPage * gmap string nat) * state :=
  let paths := Path <$> df in
  match batch_query_govuk_api paths 10 st with
  | (Ok results, st1) => (process_results results [] ∅, st1)
  | (Raise e, st1) => (Uncaught e, st1)
  end.

(** pandas' [DataFrame.drop_duplicates(subset=['Path'])], with its
    default [keep='first']: a row stays when no earlier row has its
    [Path]. *)
Fixpoint drop_duplicates_from (seen : list string) (df : DataFrame) : DataFrame :=
  match df with
  | [] => []
  | row :: rest =>
      if bool_decide (Path row ∈ seen) then drop_duplicates_from seen rest
      else row :: drop_duplicates_from (Path row :: seen) rest
  end.

Definition drop_duplicates (df : DataFrame) : DataFrame :=
  drop_duplicates_from [] df.

(** [main], from the loaded frame on: what is written to the JSON file. *)
Definition main (df : DataFrame) (st : state) : outcome (list GovPage) * state :=
  let df_deduplicated := drop_duplicates df in
  match process_pages df_deduplicated st with
  | (Returned (gov_pages, skipped_types), st1) => (Returned gov_pages, st1)
  | (Exited c, st1) => (Exited c, st1)
  | (Uncaught e, st1) => (Uncaught e, st1)
  end.

End Fetcher.

#[global] Arguments try_page : simpl never.
#[global] Arguments normalize_guide : simpl never.
#[global] Arguments query_path : simpl never.
End Scrape.

(** ** generate_synthetic_data.py *)

Module Synth.

(** The script's own response formats. *)
Record Snippet : Type := {
  well_written_snippet : string;
  badly_written_snippet : string
}.

Record ArticleSnippets : Type := {
  snippets : list Snippet
}.

Record SynthesisedText : Type := {
  poorly_written_article : string
}.

(** [snippets.dict()] read back by [SyntheticData] as the
    [ArticleSnippets] of models.py. *)
Definition snippets_dict (s : ArticleSnippets) : Models.ArticleSnippets :=
  {| Models.snippets :=
       (fun x => {| Models.well_written_snippet := well_written_snippet x;
                    Models.badly_written_snippet := badly_written_snippet x |})
       <$> snippets s |}.

(** The language-model service. Each of the two functions of the script
    sends a fixed prompt and the article to
    [openai.beta.chat.completions.parse] and returns
    [completion.choices[0].message.parsed]: the call raises, or gives
    [None], or gives a parsed object. *)
Class LanguageModel : Type := {
  lm_world : Type;
  get_synthetic_text : string -> lm_world -> res (option SynthesisedText) * lm_world;
  get_article_snippets : string -> lm_world -> res (option ArticleSnippets) * lm_world;
  lm_sleep : Q -> lm_world -> lm_world
}.

Section Synthesizer.
Context `{LanguageModel}.

(** Lines 87-100, the [try] block for a page whose body is [b]. Reading
    an attribute of [None] raises [AttributeError]. *)
Definition try_augment (b : string) (w : lm_world) : res SyntheticData * lm_world :=
  match get_synthetic_text b w with
  | (Raise e, w1) => (Raise e, w1)
  | (Ok synthetic, w1) =>
      match get_article_snippets b w1 with
      | (Raise e, w2) => (Raise e, w2)
      | (Ok None, w2) => (Raise AttributeError, w2)
      | (Ok (Some snippets), w2) =>
          match synthetic with
          | None => (Raise AttributeError, w2)
          | Some synthetic =>
              (Ok {| Models.poorly_written_article := poorly_written_article synthetic;
                     article_snippets := Some (snippets_dict snippets) |}, w2)
          end
      end
  end.

(** Lines 85-103, one turn of [for page in batch]. *)
Definition process_page (page : GovPage) (w : lm_world) : GovPage * lm_world :=
  match body (details page) with
  | Some b =>
      if negb (String.eqb b "") then
        match try_augment b w with
        | (Ok sd, w1) => (set_synthetic_data page (Some sd), w1)
        | (Raise _, w1) => (page, w1)
        end
      else (page, w)
  | None => (page, w)
  end.

(** The page objects live in [pages]; a batch is the list of the
    positions of its objects, so that an update of a page of the batch is
    an update of [pages]. *)
Fixpoint for_page_in (batch : list nat) (pages : list GovPage) (w : lm_world)
  : list GovPage * lm_world :=
  match batch with
  | [] => (pages, w)
  | k :: rest =>
      match pages !! k with
      | Some page =>
          let (page', w1) := process_page page w in
          for_page_in rest (<[k := page']> pages) w1
      | None => for_page_in rest pages w
      end
  end.

Definition process_batch (pages : list GovPage) (start_idx batch_size : nat) (w : lm_world)
  : list GovPage * list nat * lm_world :=
  let end_idx := Nat.min (start_idx + batch_size) (length pages) in
  let batch := seq start_idx (end_idx - start_idx) in
  let (pages', w1) := for_page_in batch pages w in
  (pages', batch, w1).

Record run : Type := {
  run_pages : list GovPage;
  processed_pages : list nat;
  run_world : lm_world;
  pauses : list Q
}.

(** Lines 200-224. The snippet counts and the timings are only printed. *)
Fixpoint main_loop (starts : list nat) (batch_size : nat) (r : run) : run :=
  match starts with
  | [] => r
  | i :: later =>
      let '(pages1, batch, w1) := process_batch (run_pages r) i batch_size (run_world r) in
      let processed := processed_pages r ++ batch in
      if (i + batch_size <? length pages1)%nat then
        main_loop later batch_size
          {| run_pages := pages1; processed_pages := processed;
             run_world := lm_sleep 1 w1; pauses := pauses r ++ [1%Q] |}
      else
        main_loop later batch_size
          {| run_pages := pages1; processed_pages := processed;
             run_world := w1; pauses := pauses r |}
  end.

(** [[page.dict() for page in processed_pages]] *)
Definition dump (pages : list GovPage) (processed : list nat) : list GovPage :=
  omap (fun k => pages !! k) processed.

Record finished : Type := {
  saved : list GovPage;
  slept : list Q;
  final_world : lm_world;
  ending : outcome unit
}.

(** [main], from the loaded pages on. The averages printed after the file
    is written divide by the number of pages. *)
Definition main (pages : list GovPage) (w : lm_world) : finished :=
  let batch_size := 10%nat in
  let r := main_loop (range0 (length pages) batch_size) batch_size
             {| run_pages := pages; processed_pages := []; run_world := w; pauses := [] |} in
  {| saved := dump (run_pages r) (processed_pages r);
     slept := pauses r;
     final_world := run_world r;
     ending := match processed_pages r with
               | [] => Uncaught ZeroDivisionError
               | _ => Returned tt
               end |}.

End Synthesizer.
End Synth.

(** ** The specification's wording, to compare the code with *)

Module Spec.
Import Scrape Synth.

Section Wording.
Context `{Builtins}.

(** [part.title or "Untitled Section"]: the default also stands in for a
    title that is empty. *)
Definition title_or_default (p : gmap string json) : string :=
  match p !! "title" with
  | Some v => if truthy v then format v else "Untitled Section"
  | None => "Untitled Section"
  end.

(** The default only stands in for a title that is missing. *)
Definition title_if_present (p : gmap string json) : string :=
  match p !! "title" with
  | Some v => format v
  | None => "Untitled Section"
  end.

(** One part with a non-empty body: heading, blank line, body. *)
Definition section_of (title_of : gmap string json -> string) (part : json) : option string :=
  match part with
  | JDict p =>
      match p !! "body" with
      | Some (JStr b) =>
          if String.eqb b "" then None
          else Some (nl +:+ nl +:+ "## " +:+ title_of p +:+ nl +:+ nl +:+ b)
      | _ => None
      end
  | _ => None
  end.

(** The ordered concatenation over the parts that have a body. *)
Definition combined_body (title_of : gmap string json -> string) (parts : list json) : string :=
  foldr String.append "" (omap (section_of title_of) parts).

End Wording.

(** The path at place [i], unless it is in [seen] or at an earlier place. *)
Definition unseen_at (seen paths : list string) (i : nat) : option string :=
  p ← paths !! i;
  if bool_decide (p ∈ seen ++ take i paths) then None else Some p.

(** Each distinct path once, at the place of its first occurrence: the
    paths whose position has no equal path before it. *)
Definition first_occurrences (paths : list string) : list string :=
  omap (unseen_at [] paths) (seq 0 (length paths)).

(** A part as the content API sends it: an object whose body, when it is
    not empty, is a string. *)
Definition api_part (part : json) : Prop :=
  exists p, part = JDict p /\
    (truthy_get p "body" = true -> exists b, p !! "body" = Some (JStr b)).

(** A part without a body. *)
Definition empty_part (part : json) : Prop :=
  exists p, part = JDict p /\ truthy_get p "body" = false.

(** Number of batches of [batch_size] that [n] items fill. *)
Definition batches (n batch_size : nat) : nat :=
  Nat.div (n + (batch_size - 1)) batch_size.

Section Sequential.
Context `{LanguageModel}.

(** The records of one batch, one after the other. *)
Fixpoint each_page (pages : list GovPage) (w : lm_world) : list GovPage * lm_world :=
  match pages with
  | [] => ([], w)
  | page :: rest =>
      let (page', w1) := process_page page w in
      let (rest', w2) := each_page rest w1 in
      (page' :: rest', w2)
  end.

(** The Synthesizer as the specification tells it: the records one after
    the other, with a pause of one second each time [batch_size] records
    are done and more remain. [c] counts the records done since the last
    pause. *)
Fixpoint one_by_one (batch_size c : nat) (pages : list GovPage) (w : lm_world)
  : list GovPage * lm_world * list Q :=
  match pages with
  | [] => ([], w, [])
  | page :: rest =>
      let (page', w1) := process_page page w in
      match rest with
      | [] => ([page'], w1, [])
      | _ =>
          if (S c =? batch_size)%nat then
            let '(rest', w2, ps) := one_by_one batch_size 0 rest (lm_sleep 1 w1) in
            (page' :: rest', w2, 1%Q :: ps)
          else
            let '(rest', w2, ps) := one_by_one batch_size (S c) rest w1 in
            (page' :: rest', w2, ps)
      end
  end.

(** The state of the service when the record at position [n] is reached. *)
Fixpoint world_at (batch_size c : nat) (pages : list GovPage) (n : nat) (w : lm_world)
  : lm_world :=
  match n, pages with
  | S n', page :: rest =>
      let w1 := snd (process_page page w) in
      match rest with
      | [] => w1
      | _ =>
          if (S c =? batch_size)%nat
          then world_at batch_size 0 rest n' (lm_sleep 1 w1)
          else world_at batch_size (S c) rest n' w1
      end
  | _, _ => w
  end.

End Sequential.

(** A language-model call that gave nothing usable: it raised, or its
    parsed answer is [None]. *)
Definition call_failed {A} (r : res (option A)) : bool :=
  match r with
  | Ok (Some _) => false
  | _ => true
  end.

Section Clock.
Context `{Network}.

(** What the Fetcher relies on: an HTTP request does not turn the clock
    back, and [time.sleep(secs)] lasts at least [secs]. *)
Class ClockLaws : Prop := {
  get_monotone : forall url w, (clock w <= clock (snd (requests_get url w)))%Q;
  sleep_at_least : forall secs w,
    (0 <= secs)%Q -> (clock w + secs <= clock (time_sleep secs w))%Q
}.

(** The readings of [batch_start] in a trace. *)
Definition batch_starts (tr : list event) : list Q :=
  omap (fun e => match e with EvBatchStart t => Some t | _ => None end) tr.

(** Each start is at least one second after the one before. *)
Definition paced (ts : list Q) : Prop :=
  forall i ti tj, ts !! i = Some ti -> ts !! S i = Some tj -> (ti + 1 <= tj)%Q.

(** The last start is at least [d] seconds before [t]. *)
Definition last_before (ts : list Q) (d t : Q) : Prop :=
  forall t0, last ts = Some t0 -> (t0 + d <= t)%Q.


(** The first answer to [path] in [st] has status 429. *)
Definition first_is_429 (path : string) (st : state) : bool :=
  match fst (requests_get (api_url path) (st_world st)) with
  | GetResponse r => (status_code r =? 429)%Z
  | GetRaises => false
  end.

End Clock.

(** The result [r] holds a response of the skipped document type [t]. *)
Definition skipped_as (t : string) (r : result) : bool :=
  match r with
  | (_, Some response) =>
      get_is response "document_type" t && bool_decide (t ∈ SKIP_TYPES)
  | (_, None) => false
  end.

(** pydantic keeps a body that is already a string. *)
Definition keeps_string_body `{Libraries} : Prop :=
  forall response gov_page d s,
    GovPage_validate response = Some gov_page ->
    response !! "details" = Some (JDict d) ->
    d !! "body" = Some (JStr s) ->
    body (details gov_page) = Some s.

End Spec.

(** ** The summaries the two scripts print *)

Module Report.
Import Scrape.

(** scrape_urls.py lines 173-176, [processed_types]; [load_gov_pages]
    counts [doc_types] with the same loop (lines 117-119). *)
Definition count_types (pages : list GovPage) : gmap string nat :=
  foldl (fun (processed_types : gmap string nat) (page : GovPage) =>
           <[document_type page :=
               (default 0 (processed_types !! document_type page) + 1)%nat]>
             processed_types)
        ∅ pages.

(** generate_synthetic_data.py lines 208-212: the pair
    [(batch_snippets, total_snippets)] after the loop over a batch. A
    pydantic object is true, so the test is on the two fields being
    there. *)
Fixpoint count_snippets (batch : list GovPage) (batch_snippets total_snippets : nat)
  : nat * nat :=
  match batch with
  | [] => (batch_snippets, total_snippets)
  | page :: rest =>
      match synthetic_data page with
      | Some sd =>
          match article_snippets sd with
          | Some s =>
              count_snippets rest (length (snippets s))
                (total_snippets + length (snippets s))
          | None => count_snippets rest batch_snippets total_snippets
          end
      | None => count_snippets rest batch_snippets total_snippets
      end
  end.

(** The snippets a saved record carries. *)
Definition snippet_count (page : GovPage) : nat :=
  match synthetic_data page with
  | Some sd =>
      match article_snippets sd with
      | Some s => length (snippets s)
      | None => 0
      end
  | None => 0
  end.

Section Totals.
Context `{Synth.LanguageModel}.

(** Lines 200-224 again, this time with [total_snippets] carried along;
    [batch_snippets] starts at 0 in every batch. *)
Fixpoint main_loop_totals (starts : list nat) (batch_size : nat) (r : Synth.run)
  (total_snippets : nat) : Synth.run * nat :=
  match starts with
  | [] => (r, total_snippets)
  | i :: later =>
      let '(pages1, batch, w1) :=
        Synth.process_batch (Synth.run_pages r) i batch_size (Synth.run_world r) in
      let processed := Synth.processed_pages r ++ batch in
      let total1 := snd (count_snippets (Synth.dump pages1 batch) 0 total_snippets) in
      if (i + batch_size <? length pages1)%nat then
        main_loop_totals later batch_size
          {| Synth.run_pages := pages1; Synth.processed_pages := processed;
             Synth.run_world := Synth.lm_sleep 1 w1;
             Synth.pauses := Synth.pauses r ++ [1%Q] |} total1
      else
        main_loop_totals later batch_size
          {| Synth.run_pages := pages1; Synth.processed_pages := processed;
             Synth.run_world := w1; Synth.pauses := Synth.pauses r |} total1
  end.

(** [total_snippets] when [main] prints its final statistics. *)
Definition total_snippets (pages : list GovPage) (w : Synth.lm_world) : nat :=
  snd (main_loop_totals (range0 (length pages) 10) 10
         {| Synth.run_pages := pages; Synth.processed_pages := [];
            Synth.run_world := w; Synth.pauses := [] |} 0).

End Totals.
End Report.

(** ** What a run leaves to look at *)

Module View.
Import Scrape.

(** The URLs requested, in order. *)
Definition gets (tr : list event) : list string :=
  omap (fun e => match e with EvGet url => Some url | _ => None end) tr.

(** The sleeps, in order. *)
Definition sleeps (tr : list event) : list Q :=
  omap (fun e => match e with EvSleep secs => Some secs | _ => None end) tr.

(** A result the loop of [process_pages] passes over: nothing fetched, or
    an empty object. *)
Definition passed_over (r : result) : bool :=
  match r with
  | (_, None) => true
  | (_, Some response) => bool_decide (response = ∅)
  end.

(** A result that holds a response of one of the [SKIP_TYPES]. *)
Definition skipped_type (r : result) : bool :=
  match r with
  | (_, None) => false
  | (_, Some response) =>
      negb (bool_decide (response = ∅)) &&
      get_in response "document_type" SKIP_TYPES
  end.

Section Kept.
Context `{Builtins} `{Libraries}.

(** The record a result contributes to the output, if any. *)
Definition kept_page (r : result) : option GovPage :=
  match r with
  | (_, None) => None
  | (_, Some response) =>
      if bool_decide (response = ∅) then None
      else if get_in response "document_type" SKIP_TYPES then None
      else match try_page response with
           | PageOk gov_page => Some gov_page
           | _ => None
           end
  end.

End Kept.

(** What the Fetcher may do to the outside when it queries [paths]:
    request the API URL of one of the paths, sleep the five seconds of a
    retry, or sleep the rest of a second, never more than one. *)
Definition allowed (paths : list string) (e : event) : Prop :=
  match e with
  | EvBatchStart _ => True
  | EvGet url => exists path, path ∈ paths /\ url = api_url path
  | EvSleep secs => secs = 5%Q \/ (0 < secs /\ secs <= 1)%Q
  end.

(** A part that stops the merge of a guide: not an object
    ([AttributeError]), or an object whose non-empty body is not a string
    ([TypeError]). *)
Definition bad_part (part : json) (e : exn) : Prop :=
  match part with
  | JDict p =>
      truthy_get p "body" = true /\
      (forall b, p !! "body" <> Some (JStr b)) /\ e = TypeError
  | _ => e = AttributeError
  end.

End View.

(** ** A small simulated environment, to run the code on *)

Module Sim.
Import Scrape.

Definition sim_builtins : Builtins := {| py_repr := fun _ => "<container>" |}.

Definition str_field (d : gmap string json) (k : string) : option string :=
  match d !! k with
  | Some (JStr s) => Some s
  | _ => None
  end.

(** A validator in the manner of pydantic: the required strings and the
    two required objects must be there. *)
Definition sim_validate (r : gmap string json) : option GovPage :=
  t ← str_field r "title";
  bp ← str_field r "base_path";
  cid ← str_field r "content_id";
  dt ← str_field r "document_type";
  sn ← str_field r "schema_name";
  match r !! "details", r !! "links" with
  | Some (JDict d), Some (JDict _) =>
      Some {| title := t; base_path := bp; content_id := cid;
              description := str_field r "description";
              document_type := dt; schema_name := sn;
              locale := default "en" (str_field r "locale");
              api_path := str_field r "api_path";
              web_url := str_field r "web_url";
              details := {| body := str_field d "body";
                            external_related_links := [];
                            current := None; ended_on := None;
                            parts := match d !! "parts" with
                                     | Some (JList l) => Some l
                                     | _ => None
                                     end |};
              links := {| organisations := Some []; parent := Some [];
                          available_translations := Some [] |};
              public_updated_at := str_field r "public_updated_at";
              first_published_at := str_field r "first_published_at";
              withdrawn := false;
              synthetic_data := None |}
  | _, _ => None
  end.

Definition sim_libraries : Libraries :=
  {| GovPage_validate := sim_validate;
     html2text_handle := fun s => s;
     py_strip := fun s => s |}.

(** The network plays a script of answers, one per request, and raises
    when the script is over; only sleeping moves the clock. *)
Record sim_world : Type := {
  replies : list get_result;
  now : Q
}.

Definition sim_network : Network :=
  {| world := sim_world;
     requests_get := fun _ w =>
       match replies w with
       | [] => (GetRaises, w)
       | r :: rs => (r, {| replies := rs; now := now w |})
       end;
     clock := now;
     time_sleep := fun secs w => {| replies := replies w; now := (now w + secs)%Q |} |}.

Definition sim_state (rs : list get_result) : @state sim_network :=
  {| st_world := ({| replies := rs; now := 0 |} : @world sim_network); st_trace := [] |}.

Definition answer (status : Z) (doc : gmap string json) : get_result :=
  GetResponse {| status_code := status; json_body := Some (JDict doc) |}.

(** A page of the API with the fields the schema requires. *)
Definition page_doc (doc_type : string) (details : gmap string json) : gmap string json :=
  {[ "title" := JStr "T"; "base_path" := JStr "/p"; "content_id" := JStr "c1";
     "document_type" := JStr doc_type; "schema_name" := JStr "s";
     "details" := JDict details; "links" := JDict ∅ ]}.

Definition part (title body : string) : json :=
  JDict {[ "title" := JStr title; "body" := JStr body ]}.

(** The language model refuses the article ["bad"] and answers the others;
    its state counts the calls. *)
Definition sim_model : Synth.LanguageModel :=
  {| Synth.lm_world := nat;
     Synth.get_synthetic_text := fun b n =>
       if String.eqb b "bad" then (Raise ValueError, S n)
       else (Ok (Some {| Synth.poorly_written_article := "so like, " +:+ b |}), S n);
     Synth.get_article_snippets := fun b n =>
       (Ok (Some {| Synth.snippets :=
                      [{| Synth.well_written_snippet := b;
                          Synth.badly_written_snippet := "uh, " +:+ b |}] |}), S n);
     Synth.lm_sleep := fun _ n => n |}.

Definition sim_page (t : string) (b : option string) : GovPage :=
  {| title := t; base_path := "/" +:+ t; content_id := t; description := None;
     document_type := "answer"; schema_name := "answer"; locale := "en";
     api_path := None; web_url := None;
     details := {| body := b; external_related_links := []; current := None;
                   ended_on := None; parts := None |};
     links := {| organisations := Some []; parent := Some [];
                 available_translations := Some [] |};
     public_updated_at := None; first_published_at := None;
     withdrawn := false; synthetic_data := None |}.

End Sim.

(** * Properties *)

Import Scrape Spec.

(** ** Strings *)

Lemma append_assoc (a b c : string) : (a +:+ b) +:+ c = a +:+ (b +:+ c).
Proof.
  induction a as [|x a IH]; [reflexivity|].
  change (String x ((a +:+ b) +:+ c) = String x (a +:+ (b +:+ c))).
  now rewrite IH.
Qed.

Lemma append_empty_r (a : string) : a +:+ "" = a.
Proof.
  induction a as [|x a IH]; [reflexivity|].
  change (String x (a +:+ "") = String x a). now rewrite IH.
Qed.

Lemma eqb_empty_false (b : string) : negb (String.eqb b "") = true -> String.eqb b "" = false.
Proof. now destruct (String.eqb b ""). Qed.

(** ** Guide parts (lines 121-129) *)

Section GuideParts.
Context `{Builtins}.

Lemma add_part_api (acc : string) (part : json) :
  api_part part ->
  add_part acc part =
    Ok (acc +:+ default "" (section_of title_if_present part)).
Proof.
  intros (p & -> & Hb). unfold add_part, section_of, truthy_get in *.
  destruct (p !! "body") as [v|] eqn:Ev; simpl.
  - destruct (truthy v) eqn:Et.
    + destruct (Hb eq_refl) as (b & Eb). injection Eb as ->. simpl in Et.
      rewrite (eqb_empty_false _ Et). unfold title_if_present.
      destruct (p !! "title"); simpl; now rewrite !append_assoc.
    + destruct v; simpl in *; try now rewrite append_empty_r.
      destruct (String.eqb s ""); [now rewrite append_empty_r | discriminate].
  - now rewrite append_empty_r.
Qed.

Lemma combine_parts_api (parts : list json) (acc : string) :
  Forall api_part parts ->
  combine_parts acc parts = Ok (acc +:+ combined_body title_if_present parts).
Proof.
  intros Hall. revert acc. induction Hall as [|part parts Hp _ IH]; intros acc.
  - simpl. now rewrite append_empty_r.
  - simpl. rewrite (add_part_api _ _ Hp). simpl. rewrite IH.
    unfold combined_body. simpl.
    destruct (section_of title_if_present part); simpl.
    + now rewrite append_assoc.
    + now rewrite append_empty_r.
Qed.

End GuideParts.

Section NormalizeGuide.
Context `{Builtins}.

Lemma normalize_guide_parts (response d : gmap string json) (ps : list json) (s : string) :
  get_is response "document_type" "guide" = true ->
  response !! "details" = Some (JDict d) ->
  d !! "parts" = Some (JList ps) ->
  combine_parts "" ps = Ok s ->
  normalize_guide response = Ok (<["details" := JDict (<["body" := JStr s]> d)]> response).
Proof.
  intros Hg Hd Hp Hc. unfold normalize_guide. rewrite Hg, Hd. simpl.
  rewrite Hp. rewrite bool_decide_eq_true_2 by eauto. simpl.
  rewrite Hd. simpl. rewrite Hp. simpl. now rewrite Hc.
Qed.

Lemma stored_body_insert (response d : gmap string json) (v : json) :
  stored_body (<["details" := JDict (<["body" := v]> d)]> response) = Some v.
Proof. unfold stored_body. now rewrite !lookup_insert_eq. Qed.

Lemma empty_part_api (part : json) : empty_part part -> api_part part.
Proof. intros (p & -> & Hb). exists p. split; [reflexivity|]. rewrite Hb. discriminate. Qed.

Lemma empty_part_section (title_of : gmap string json -> string) (part : json) :
  empty_part part -> section_of title_of part = None.
Proof.
  intros (p & -> & Hb). unfold section_of, truthy_get in *.
  destruct (p !! "body") as [[]|]; try reflexivity.
  simpl in Hb. now destruct (String.eqb s "").
Qed.

Lemma combined_body_empty (title_of : gmap string json -> string) (ps : list json) :
  Forall empty_part ps -> combined_body title_of ps = "".
Proof.
  induction 1 as [|part ps Hp _ IH]; [reflexivity|].
  unfold combined_body in *. simpl. now rewrite (empty_part_section _ _ Hp).
Qed.

(** C1, as amended: for a response of document type "guide" whose details
    carry a list of parts (each an object whose body, when not empty, is a
    string), the body stored on the response before validation is the
    ordered concatenation, over the parts with a non-empty body, of the
    heading made of the part's title (the default "Untitled Section" only
    when the part has no title) and the part's body; it replaces whatever
    body was there. *)
Theorem guide_body_concatenation (response d : gmap string json) (ps : list json) :
  get_is response "document_type" "guide" = true ->
  response !! "details" = Some (JDict d) ->
  d !! "parts" = Some (JList ps) ->
  Forall api_part ps ->
  exists response',
    normalize_guide response = Ok response' /\
    stored_body response' = Some (JStr (combined_body title_if_present ps)).
Proof.
  intros Hg Hd Hp Hall. eexists. split.
  - eapply normalize_guide_parts; eauto. apply combine_parts_api, Hall.
  - apply stored_body_insert.
Qed.

End NormalizeGuide.

Lemma guide_body_concatenation_witness :
  let ps := [Sim.part "" "x"; Sim.part "Fees" ""; Sim.part "How to apply" "y"] in
  exists response',
    @normalize_guide Sim.sim_builtins
      (Sim.page_doc "guide" {[ "parts" := JList ps; "body" := JStr "old" ]}) = Ok response' /\
    stored_body response' =
      Some (JStr (@combined_body (@title_if_present Sim.sim_builtins) ps)).
Proof.
  intros ps.
  apply (@guide_body_concatenation Sim.sim_builtins _
           {[ "parts" := JList ps; "body" := JStr "old" ]} ps).
  - vm_compute. reflexivity.
  - vm_compute. reflexivity.
  - vm_compute. reflexivity.
  - repeat constructor; (eexists; split; [reflexivity|]);
      intros _; eexists; vm_compute; reflexivity.
Defined.

(** C1, as stated, fails on a part whose title is the empty string: the
    code writes an empty heading, the claim wants "Untitled Section". *)
Lemma guide_body_empty_title_counterexample :
  let ps := [Sim.part "" "x"] in
  exists response',
    @normalize_guide Sim.sim_builtins
      (Sim.page_doc "guide" {[ "parts" := JList ps ]}) = Ok response' /\
    stored_body response' = Some (JStr (nl +:+ nl +:+ "## " +:+ nl +:+ nl +:+ "x")) /\
    @combined_body (@title_or_default Sim.sim_builtins) ps =
      nl +:+ nl +:+ "## Untitled Section" +:+ nl +:+ nl +:+ "x" /\
    stored_body response' <>
      Some (JStr (@combined_body (@title_or_default Sim.sim_builtins) ps)).
Proof.
  intros ps. eexists. split; [vm_compute; reflexivity|].
  split; [vm_compute; reflexivity|]. split; [vm_compute; reflexivity|].
  vm_compute. discriminate.
Qed.

(** ** The loop of [process_pages] (lines 101-156) *)

Section ProcessPages.
Context `{Builtins} `{Libraries}.

Lemma get_is_eq (d : gmap string json) (k s : string) :
  get_is d k s = true -> d !! k = Some (JStr s).
Proof.
  unfold get_is. destruct (d !! k) as [[]|]; try discriminate.
  intros E. apply String.eqb_eq in E. now subst.
Qed.

Lemma get_is_nonempty (d : gmap string json) (k s : string) :
  get_is d k s = true -> d <> ∅.
Proof. intros E%get_is_eq ->. now rewrite lookup_empty in E. Qed.

Lemma get_in_nonempty (d : gmap string json) (k : string) (l : list string) :
  get_in d k l = true -> d <> ∅.
Proof.
  unfold get_in. intros E. apply existsb_exists in E as (s & _ & E).
  eapply get_is_nonempty, E.
Qed.

Lemma guide_not_skipped (response : gmap string json) :
  get_is response "document_type" "guide" = true ->
  get_in response "document_type" SKIP_TYPES = false.
Proof.
  intros E%get_is_eq. unfold get_in, get_is. rewrite E. reflexivity.
Qed.

(** One response that is neither empty nor of a skipped type. *)
Lemma process_results_try (path : string) (response : gmap string json)
  (rest : list result) (gov_pages : list GovPage) (skipped : gmap string nat) :
  response <> ∅ ->
  get_in response "document_type" SKIP_TYPES = false ->
  process_results ((path, Some response) :: rest) gov_pages skipped =
    match try_page response with
    | PageOk gov_page => process_results rest (gov_pages ++ [gov_page]) skipped
    | _ => Exited 1
    end.
Proof.
  intros Hne Hs. simpl. rewrite bool_decide_eq_false_2 by assumption.
  rewrite Hs. now destruct (try_page response).
Qed.

Lemma process_results_app (pre post : list result) (gov_pages : list GovPage)
  (skipped : gmap string nat) :
  process_results (pre ++ post) gov_pages skipped =
    match process_results pre gov_pages skipped with
    | Returned (gov_pages', skipped') => process_results post gov_pages' skipped'
    | Exited c => Exited c
    | Uncaught e => Uncaught e
    end.
Proof.
  revert gov_pages skipped.
  induction pre as [|[path [response|]] pre IH]; intros gov_pages skipped; simpl.
  - reflexivity.
  - destruct (bool_decide (response = ∅)); [apply IH|].
    destruct (get_in response "document_type" SKIP_TYPES); [apply IH|].
    destruct (try_page response); [apply IH | reflexivity | reflexivity].
  - apply IH.
Qed.

Lemma try_page_no_body (response response' : gmap string json) (gov_page : GovPage) :
  normalize_guide response = Ok response' ->
  GovPage_validate response' = Some gov_page ->
  has_body gov_page = false ->
  try_page response = NoBody.
Proof.
  intros Hn Hv Hb. unfold try_page. rewrite Hn, Hv. unfold has_body in Hb.
  destruct (body (details gov_page)); [|reflexivity]. now rewrite Hb.
Qed.

End ProcessPages.

Section FailFast.
Context `{Builtins} `{Libraries} `{Network}.

(** C3: when a record, after the guide's parts are merged and the schema
    has accepted it, has no non-empty body, the run ends there with
    [sys.exit(1)], whatever records follow: [main] writes no file, so
    nothing is put out for this record or a later one. *)
Theorem missing_body_aborts_run (df : DataFrame) (st st1 : state)
  (pre rest : list result) (path : string) (response response' : gmap string json)
  (gov_page : GovPage) (done : list GovPage * gmap string nat) :
  batch_query_govuk_api (Path <$> drop_duplicates df) 10 st =
    (Ok (pre ++ (path, Some response) :: rest), st1) ->
  process_results pre [] ∅ = Returned done ->
  response <> ∅ ->
  get_in response "document_type" SKIP_TYPES = false ->
  normalize_guide response = Ok response' ->
  GovPage_validate response' = Some gov_page ->
  has_body gov_page = false ->
  process_results (pre ++ (path, Some response) :: rest) [] ∅ = Exited 1 /\
  process_pages (drop_duplicates df) st = (Exited 1, st1) /\
  main df st = (Exited 1, st1).
Proof.
  intros Hq Hpre Hne Hs Hn Hv Hb.
  assert (E : process_results (pre ++ (path, Some response) :: rest) [] ∅ = Exited 1).
  { rewrite process_results_app, Hpre. destruct done as [gov_pages skipped].
    rewrite process_results_try by assumption.
    now rewrite (try_page_no_body _ _ _ Hn Hv Hb). }
  assert (E2 : process_pages (drop_duplicates df) st = (Exited 1, st1)).
  { unfold process_pages. now rewrite Hq, E. }
  split; [exact E|]. split; [exact E2|].
  unfold main. now rewrite E2.
Qed.

End FailFast.

Lemma missing_body_aborts_run_witness :
  let df := [ {| Path := "/a"; other_cells := [] |};
              {| Path := "/b"; other_cells := [] |};
              {| Path := "/a"; other_cells := [] |} ] in
  let good := Sim.page_doc "answer" {[ "body" := JStr "<p>hi</p>" ]} in
  let bare := Sim.page_doc "answer" ∅ in
  exists st1,
    @main Sim.sim_builtins Sim.sim_libraries Sim.sim_network df
      (Sim.sim_state [Sim.answer 200 good; Sim.answer 200 bare]) = (Exited 1, st1).
Proof.
  intros df good bare. eexists.
  apply (@missing_body_aborts_run Sim.sim_builtins Sim.sim_libraries Sim.sim_network
           df (Sim.sim_state [Sim.answer 200 good; Sim.answer 200 bare]) _
           [("/a", Some good)] [] "/b" bare bare
           (default (Sim.sim_page "" None) (Sim.sim_validate bare))
           ([default (Sim.sim_page "" None) (Sim.sim_validate good)], ∅)).
  - vm_compute. reflexivity.
  - vm_compute. reflexivity.
  - intros E. apply (f_equal (fun m => m !! "title")) in E. vm_compute in E. discriminate.
  - vm_compute. reflexivity.
  - vm_compute. reflexivity.
  - vm_compute. reflexivity.
  - vm_compute. reflexivity.
Defined.

Lemma sim_keeps_string_body : @keeps_string_body Sim.sim_libraries.
Proof.
  intros response gov_page d s Hv Hd Hb. simpl in Hv. unfold Sim.sim_validate in Hv.
  destruct (Sim.str_field response "title"); [|discriminate].
  destruct (Sim.str_field response "base_path"); [|discriminate].
  destruct (Sim.str_field response "content_id"); [|discriminate].
  destruct (Sim.str_field response "document_type"); [|discriminate].
  destruct (Sim.str_field response "schema_name"); [|discriminate].
  simpl in Hv. rewrite Hd in Hv.
  destruct (response !! "links") as [[]|]; try discriminate.
  injection Hv as <-. simpl. unfold Sim.str_field. now rewrite Hb.
Qed.

Section EmptyGuide.
Context `{Builtins} `{Libraries}.

(** C10: a guide whose list of parts holds no part with a non-empty body
    gets the empty string as its body; the schema either refuses the
    record or hands it on with that empty body, which is the missing-body
    branch; in both cases the run ends with [sys.exit(1)] instead of
    leaving the record out. *)
Theorem guide_without_bodies_aborts (path : string) (response d : gmap string json)
  (ps : list json) (rest : list result) (gov_pages : list GovPage)
  (skipped : gmap string nat) :
  keeps_string_body ->
  get_is response "document_type" "guide" = true ->
  response !! "details" = Some (JDict d) ->
  d !! "parts" = Some (JList ps) ->
  Forall empty_part ps ->
  exists response',
    normalize_guide response = Ok response' /\
    stored_body response' = Some (JStr "") /\
    (is_Some (GovPage_validate response') -> try_page response = NoBody) /\
    (GovPage_validate response' = None -> try_page response = Failed ValidationError) /\
    process_results ((path, Some response) :: rest) gov_pages skipped = Exited 1.
Proof.
  intros Hkeep Hg Hd Hp Hall.
  assert (Hn : normalize_guide response =
               Ok (<["details" := JDict (<["body" := JStr ""]> d)]> response)).
  { eapply normalize_guide_parts; eauto.
    rewrite combine_parts_api by (eapply Forall_impl; [exact Hall | apply empty_part_api]).
    now rewrite (combined_body_empty _ _ Hall). }
  assert (Hno : is_Some (GovPage_validate
                  (<["details" := JDict (<["body" := JStr ""]> d)]> response)) ->
                try_page response = NoBody).
  { intros [gov_page Hv]. eapply try_page_no_body; eauto.
    assert (Eb : body (details gov_page) = Some "").
    { eapply Hkeep; [exact Hv | apply lookup_insert_eq | apply lookup_insert_eq]. }
    unfold has_body. now rewrite Eb. }
  assert (Hfail : GovPage_validate
                  (<["details" := JDict (<["body" := JStr ""]> d)]> response) = None ->
                try_page response = Failed ValidationError).
  { intros Hv. unfold try_page. now rewrite Hn, Hv. }
  eexists. split; [exact Hn|]. split; [apply stored_body_insert|].
  split; [exact Hno|]. split; [exact Hfail|].
  rewrite process_results_try;
    [| eapply get_is_nonempty; eauto | now apply guide_not_skipped].
  destruct (GovPage_validate (<["details" := JDict (<["body" := JStr ""]> d)]> response))
    as [gov_page|] eqn:Hv.
  - rewrite Hno by eauto. reflexivity.
  - rewrite Hfail by reflexivity. reflexivity.
Qed.

End EmptyGuide.

Lemma guide_without_bodies_aborts_witness :
  let ps := [Sim.part "Overview" ""; JDict {[ "title" := JStr "Fees" ]}] in
  let d : gmap string json := {[ "parts" := JList ps; "body" := JStr "<p>old</p>" ]} in
  exists response',
    @normalize_guide Sim.sim_builtins (Sim.page_doc "guide" d) = Ok response' /\
    stored_body response' = Some (JStr "") /\
    (is_Some (Sim.sim_validate response') ->
     @try_page Sim.sim_builtins Sim.sim_libraries (Sim.page_doc "guide" d) = NoBody) /\
    (Sim.sim_validate response' = None ->
     @try_page Sim.sim_builtins Sim.sim_libraries (Sim.page_doc "guide" d) =
       Failed ValidationError) /\
    @process_results Sim.sim_builtins Sim.sim_libraries
      [("/g", Some (Sim.page_doc "guide" d))] [] ∅ = Exited 1.
Proof.
  intros ps d.
  apply (@guide_without_bodies_aborts Sim.sim_builtins Sim.sim_libraries
           "/g" (Sim.page_doc "guide" d) d ps [] [] ∅).
  - exact sim_keeps_string_body.
  - vm_compute. reflexivity.
  - vm_compute. reflexivity.
  - vm_compute. reflexivity.
  - repeat constructor; (eexists; split; [reflexivity|]); vm_compute; reflexivity.
Defined.

(** ** Skipped document types (lines 62-66 and 99-110) *)

Section SkipTypes.
Context `{Builtins} `{Libraries} `{Network}.

Lemma doc_type_of_skipped (response : gmap string json) :
  get_in response "document_type" SKIP_TYPES = true ->
  In (doc_type_of response) SKIP_TYPES /\
  forall t, get_is response "document_type" t = true <-> t = doc_type_of response.
Proof.
  unfold get_in. intros E. apply existsb_exists in E as (s & Hin & E).
  apply get_is_eq in E. unfold doc_type_of, get_is. rewrite E. split; [exact Hin|].
  intros t. rewrite String.eqb_eq. split; congruence.
Qed.

Lemma not_skipped_as (response : gmap string json) (t : string) :
  get_in response "document_type" SKIP_TYPES = false ->
  get_is response "document_type" t && bool_decide (t ∈ SKIP_TYPES) = false.
Proof.
  intros E. destruct (get_is response "document_type" t) eqn:Et; [|reflexivity].
  simpl. apply bool_decide_eq_false_2. intros Hin.
  apply list_elem_of_In in Hin.
  assert (get_in response "document_type" SKIP_TYPES = true); [|congruence].
  unfold get_in. apply existsb_exists. eauto.
Qed.

Lemma tally_of_run (results : list result) :
  forall gov_pages skipped gov_pages' skipped',
    process_results results gov_pages skipped = Returned (gov_pages', skipped') ->
    forall t, (default 0 (skipped' !! t) =
               default 0 (skipped !! t) + length (List.filter (skipped_as t) results))%nat.
Proof.
  induction results as [|[path [response|]] results IH];
    intros gov_pages skipped gov_pages' skipped' Hrun t; simpl in Hrun.
  - injection Hrun as _ <-. simpl. lia.
  - destruct (bool_decide (response = ∅)) eqn:Ee.
    { apply bool_decide_eq_true_1 in Ee. subst response.
      rewrite (IH _ _ _ _ Hrun t). simpl. unfold get_is. rewrite lookup_empty. reflexivity. }
    destruct (get_in response "document_type" SKIP_TYPES) eqn:Es.
    + destruct (doc_type_of_skipped _ Es) as [Hin Hiff].
      rewrite (IH _ _ _ _ Hrun t). simpl.
      destruct (decide (t = doc_type_of response)) as [->|Hne].
      * rewrite lookup_insert_eq. simpl.
        rewrite (proj2 (Hiff _) eq_refl).
        rewrite bool_decide_eq_true_2 by (now apply list_elem_of_In). simpl. lia.
      * rewrite lookup_insert_ne by congruence.
        destruct (get_is response "document_type" t) eqn:Et;
          [apply Hiff in Et; contradiction | reflexivity].
    + simpl. rewrite (not_skipped_as _ t Es).
      destruct (try_page response); try discriminate. apply (IH _ _ _ _ Hrun t).
  - apply (IH _ _ _ _ Hrun t).
Qed.

(** C2, as amended: a response of type "government" or
    "mainstream_browse_page" adds no record and adds exactly one to the
    skip counter of its type, so that a run that returns has counted each
    of them once; a response of type "placeholder" or "redirect" is
    recorded as a missing result when it is fetched, and a missing result
    adds no record and changes no counter. *)
Theorem skipped_types_tally :
  (forall path response rest gov_pages skipped,
     get_in response "document_type" SKIP_TYPES = true ->
     In (doc_type_of response) SKIP_TYPES /\
     process_results ((path, Some response) :: rest) gov_pages skipped =
       process_results rest gov_pages
         (<[doc_type_of response :=
              (default 0 (skipped !! doc_type_of response) + 1)%nat]> skipped)) /\
  (forall results gov_pages skipped,
     process_results results [] ∅ = Returned (gov_pages, skipped) ->
     forall t, (default 0 (skipped !! t) =
                length (List.filter (skipped_as t) results))%nat) /\
  (forall path st r st1 data,
     get_with_retry path st = (GetResponse r, st1) ->
     raise_for_status r = false ->
     json_body r = Some (JDict data) ->
     get_in data "document_type" ["placeholder"; "redirect"] = true ->
     query_path path st = (Ok (path, None), st1)) /\
  (forall path rest gov_pages skipped,
     process_results ((path, None) :: rest) gov_pages skipped =
       process_results rest gov_pages skipped).
Proof.
  split; [|split; [|split]].
  - intros path response rest gov_pages skipped Es.
    split; [apply (doc_type_of_skipped _ Es)|].
    simpl. rewrite bool_decide_eq_false_2 by (eapply get_in_nonempty, Es).
    now rewrite Es.
  - intros results gov_pages skipped Hrun t.
    rewrite (tally_of_run _ _ _ _ _ Hrun t). now rewrite lookup_empty.
  - intros path st r st1 data Hg Hs Hj Hd. unfold query_path.
    now rewrite Hg, Hs, Hj, Hd.
  - reflexivity.
Qed.

End SkipTypes.

Lemma skipped_types_tally_witness :
  @process_results Sim.sim_builtins Sim.sim_libraries
    [("/g", Some (Sim.page_doc "government" ∅))] [] ∅ =
  Returned ([], {[ "government" := 1%nat ]}).
Proof.
  rewrite (proj2 (proj1 (@skipped_types_tally Sim.sim_builtins Sim.sim_libraries
                           Sim.sim_network)
                    "/g" (Sim.page_doc "government" ∅) [] [] ∅ eq_refl)).
  vm_compute. reflexivity.
Defined.

(** C2, as stated, fails for "placeholder": the response is dropped when
    it is fetched and no skip counter moves. *)
Lemma placeholder_not_tallied_counterexample :
  exists st1,
    @process_pages Sim.sim_builtins Sim.sim_libraries Sim.sim_network
      [ {| Path := "/p"; other_cells := [] |} ]
      (Sim.sim_state [Sim.answer 200 (Sim.page_doc "placeholder" ∅)]) =
      (Returned ([], ∅), st1) /\
    (∅ : gmap string nat) !! "placeholder" <> Some 1%nat.
Proof.
  eexists. split; [vm_compute; reflexivity|]. rewrite lookup_empty. discriminate.
Qed.

(** ** One request, retried once on 429 (lines 50-72) *)

Section Requests.
Context `{Network}.

Lemma get_with_retry_trace (path : string) (st : state) :
  st_trace (snd (get_with_retry path st)) =
    st_trace st ++
    (if first_is_429 path st
     then [EvGet (api_url path); EvSleep 5; EvGet (api_url path)]
     else [EvGet (api_url path)]).
Proof.
  unfold get_with_retry, first_is_429, do_get.
  destruct (requests_get (api_url path) (st_world st)) as [[|r] w1]; simpl.
  - reflexivity.
  - destruct (status_code r =? 429)%Z; simpl; [|reflexivity].
    destruct (requests_get (api_url path) (time_sleep 5 w1)) as [g w2]. simpl.
    now rewrite <- !app_assoc.
Qed.

Lemma query_path_state (path : string) (st : state) :
  snd (query_path path st) = snd (get_with_retry path st).
Proof.
  unfold query_path. destruct (get_with_retry path st) as [[|r] st1]; simpl.
  - reflexivity.
  - destruct (raise_for_status r); [reflexivity|].
    destruct (json_body r) as [[]|]; try reflexivity.
    now destruct (get_in d "document_type" ["placeholder"; "redirect"]).
Qed.



End Requests.


(** ** Deduplication of the paths (lines 166-171) *)

Section Dedup.

Lemma omap_seq_shift {B} (f g : nat -> option B) (n j : nat) :
  (forall i, f (S i) = g i) ->
  omap f (seq (S j) n) = omap g (seq j n).
Proof.
  intros Hfg. revert j. induction n as [|n IH]; intros j; [reflexivity|].
  simpl. rewrite Hfg, IH. reflexivity.
Qed.

Lemma drop_duplicates_from_places (df : DataFrame) (seen : list string) :
  Path <$> drop_duplicates_from seen df =
    omap (unseen_at seen (Path <$> df)) (seq 0 (length df)).
Proof.
  revert seen. induction df as [|row df IH]; intros seen; [reflexivity|].
  cbn [drop_duplicates_from length seq omap list_omap fmap list_fmap].
  unfold unseen_at at 1. cbn [lookup list_lookup mbind option_bind take].
  rewrite app_nil_r.
  destruct (bool_decide (Path row ∈ seen)) eqn:Es.
  - apply bool_decide_eq_true_1 in Es. rewrite IH. symmetry.
    apply omap_seq_shift. intros i. unfold unseen_at. simpl.
    destruct ((Path <$> df) !! i) as [p|]; [simpl|reflexivity].
    erewrite bool_decide_ext; [reflexivity|]. set_solver.
  - cbn [fmap list_fmap]. f_equal. rewrite IH. symmetry.
    apply omap_seq_shift. intros i. unfold unseen_at. simpl.
    destruct ((Path <$> df) !! i) as [p|]; [simpl|reflexivity].
    erewrite bool_decide_ext; [reflexivity|]. set_solver.
Qed.

Lemma drop_duplicates_from_elem (df : DataFrame) (seen : list string) (p : string) :
  p ∈ Path <$> drop_duplicates_from seen df <-> p ∈ Path <$> df /\ p ∉ seen.
Proof.
  revert seen. induction df as [|row df IH]; intros seen; simpl.
  - set_solver.
  - destruct (bool_decide (Path row ∈ seen)) eqn:Es.
    + apply bool_decide_eq_true_1 in Es. rewrite IH. set_solver.
    + apply bool_decide_eq_false_1 in Es. rewrite fmap_cons, !elem_of_cons, IH.
      destruct (decide (p = Path row)); set_solver.
Qed.

Lemma drop_duplicates_from_NoDup (df : DataFrame) (seen : list string) :
  NoDup (Path <$> drop_duplicates_from seen df).
Proof.
  revert seen. induction df as [|row df IH]; intros seen; simpl.
  - constructor.
  - destruct (bool_decide (Path row ∈ seen)); [apply IH|].
    rewrite fmap_cons. constructor; [|apply IH].
    rewrite drop_duplicates_from_elem. set_solver.
Qed.

End Dedup.

Section QueriedPaths.
Context `{Builtins} `{Libraries} `{Network}.

(** C8: the paths handed to [batch_query_govuk_api] are the paths of the
    input, each distinct one once, at the place of its first occurrence. *)
Theorem queried_paths_first_occurrences (df : DataFrame) (st : state) :
  let queried := Path <$> drop_duplicates df in
  queried = first_occurrences (Path <$> df) /\
  NoDup queried /\
  (forall p, p ∈ queried <-> p ∈ Path <$> df) /\
  main df st =
    match batch_query_govuk_api queried 10 st with
    | (Ok results, st1) =>
        (match process_results results [] ∅ with
         | Returned (gov_pages, _) => Returned gov_pages
         | Exited c => Exited c
         | Uncaught e => Uncaught e
         end, st1)
    | (Raise e, st1) => (Uncaught e, st1)
    end.
Proof.
  intros queried. subst queried. split; [|split; [|split]].
  - unfold drop_duplicates, first_occurrences.
    rewrite drop_duplicates_from_places, length_fmap. reflexivity.
  - apply drop_duplicates_from_NoDup.
  - intros p. unfold drop_duplicates. rewrite drop_duplicates_from_elem. set_solver.
  - unfold main, process_pages.
    destruct (batch_query_govuk_api (Path <$> drop_duplicates df) 10 st) as [[results|e] st1];
      [|reflexivity].
    now destruct (process_results results [] ∅) as [[gov_pages skipped]| |].
Qed.

End QueriedPaths.

Example first_occurrences_example :
  first_occurrences ["/a"; "/b"; "/a"; "/c"; "/b"] = ["/a"; "/b"; "/c"].
Proof. vm_compute. reflexivity. Qed.

(** ** The Synthesizer: one record (lines 84-104) *)

Section OneRecord.
Context `{Synth.LanguageModel}.

Lemma set_synthetic_data_same (page : GovPage) :
  set_synthetic_data page (synthetic_data page) = page.
Proof. now destruct page. Qed.

Lemma process_page_no_body (page : GovPage) (w : Synth.lm_world) :
  has_body page = false -> Synth.process_page page w = (page, w).
Proof.
  unfold has_body, Synth.process_page.
  destruct (body (details page)); [|reflexivity]. now intros ->.
Qed.

Lemma process_page_body (page : GovPage) (b : string) (w : Synth.lm_world) :
  body (details page) = Some b -> b <> "" ->
  Synth.process_page page w =
    match Synth.try_augment b w with
    | (Ok sd, w1) => (set_synthetic_data page (Some sd), w1)
    | (Raise _, w1) => (page, w1)
    end.
Proof.
  intros Hb Hne. unfold Synth.process_page. rewrite Hb.
  destruct (String.eqb b "") eqn:E; [apply String.eqb_eq in E; contradiction|].
  reflexivity.
Qed.

(** What [try_augment] gives is whole: a rewrite with its snippets. *)
Lemma try_augment_whole (b : string) (w : Synth.lm_world) (sd : SyntheticData) :
  fst (Synth.try_augment b w) = Ok sd ->
  exists synthetic snippets,
    fst (Synth.get_synthetic_text b w) = Ok (Some synthetic) /\
    fst (Synth.get_article_snippets b (snd (Synth.get_synthetic_text b w))) =
      Ok (Some snippets) /\
    sd = {| poorly_written_article := Synth.poorly_written_article synthetic;
            article_snippets := Some (Synth.snippets_dict snippets) |}.
Proof.
  unfold Synth.try_augment.
  destruct (Synth.get_synthetic_text b w) as [[synthetic|e] w1]; simpl; [|discriminate].
  destruct (Synth.get_article_snippets b w1) as [[[snippets|]|e] w2]; simpl;
    try discriminate.
  destruct synthetic as [synthetic|]; simpl; [|discriminate].
  intros [= <-]. eauto.
Qed.

Lemma try_augment_rewrite_failed (b : string) (w : Synth.lm_world) :
  call_failed (fst (Synth.get_synthetic_text b w)) = true ->
  exists e, fst (Synth.try_augment b w) = Raise e.
Proof.
  unfold Synth.try_augment.
  destruct (Synth.get_synthetic_text b w) as [[[synthetic|]|e] w1]; simpl;
    try discriminate; intros _; [|eauto].
  destruct (Synth.get_article_snippets b w1) as [[[snippets|]|e] w2]; simpl; eauto.
Qed.

Lemma try_augment_snippets_failed (b : string) (w : Synth.lm_world)
  (synthetic : option Synth.SynthesisedText) :
  fst (Synth.get_synthetic_text b w) = Ok synthetic ->
  call_failed (fst (Synth.get_article_snippets b (snd (Synth.get_synthetic_text b w)))) = true ->
  exists e, fst (Synth.try_augment b w) = Raise e.
Proof.
  unfold Synth.try_augment.
  destruct (Synth.get_synthetic_text b w) as [[syn|e] w1]; simpl; [|discriminate].
  intros _.
  destruct (Synth.get_article_snippets b w1) as [[[snippets|]|e] w2]; simpl;
    try discriminate; eauto.
Qed.

Lemma process_page_failed (page : GovPage) (w : Synth.lm_world) (b : string) (e : exn) :
  body (details page) = Some b ->
  fst (Synth.try_augment b w) = Raise e ->
  fst (Synth.process_page page w) = page.
Proof.
  intros Hb Hf. unfold Synth.process_page. rewrite Hb.
  destruct (negb (String.eqb b "")); [|reflexivity].
  destruct (Synth.try_augment b w) as [[sd|e'] w1]; simpl in *; [discriminate|reflexivity].
Qed.

(** A processed page is the page itself or the page with a whole
    augmentation, and the latter only when it has a body. *)
Lemma process_page_frame (page : GovPage) (w : Synth.lm_world) :
  fst (Synth.process_page page w) = page \/
  has_body page = true /\
  exists b sd, body (details page) = Some b /\
    fst (Synth.try_augment b w) = Ok sd /\
    fst (Synth.process_page page w) = set_synthetic_data page (Some sd).
Proof.
  unfold Synth.process_page, has_body.
  destruct (body (details page)) as [b|]; [|now left].
  destruct (negb (String.eqb b "")); [|now left].
  destruct (Synth.try_augment b w) as [[sd|e] w1] eqn:E; [|now left].
  right. split; [reflexivity|]. exists b, sd. now rewrite E.
Qed.

Lemma try_augment_both (b : string) (w : Synth.lm_world)
  (synthetic : Synth.SynthesisedText) (snippets : Synth.ArticleSnippets) :
  fst (Synth.get_synthetic_text b w) = Ok (Some synthetic) ->
  fst (Synth.get_article_snippets b (snd (Synth.get_synthetic_text b w))) =
    Ok (Some snippets) ->
  fst (Synth.try_augment b w) =
    Ok {| poorly_written_article := Synth.poorly_written_article synthetic;
          article_snippets := Some (Synth.snippets_dict snippets) |}.
Proof.
  unfold Synth.try_augment.
  destruct (Synth.get_synthetic_text b w) as [r1 w1]. simpl. intros ->.
  destruct (Synth.get_article_snippets b w1) as [r2 w2]. simpl. now intros ->.
Qed.

Lemma has_body_nonempty (page : GovPage) (b : string) :
  has_body page = true -> body (details page) = Some b -> b <> "".
Proof.
  unfold has_body. intros Hh Hb. rewrite Hb in Hh. intros ->. discriminate.
Qed.

(** C5: a record that comes in without augmentation leaves either without
    augmentation or with exactly the augmentation made of the rewrite
    that the first call gave and the snippets that the second call gave
    for its body; when the rewrite call or the snippet call fails (it
    raises or gives nothing) the record leaves as it came, without
    augmentation; when both calls succeed the record leaves with that
    augmentation and is otherwise unchanged. *)
Theorem augmentation_all_or_nothing (page : GovPage) (w : Synth.lm_world) :
  synthetic_data page = None ->
  let page' := fst (Synth.process_page page w) in
  (synthetic_data page' = None \/
   exists b synthetic snippets,
     body (details page) = Some b /\ b <> "" /\
     fst (Synth.get_synthetic_text b w) = Ok (Some synthetic) /\
     fst (Synth.get_article_snippets b (snd (Synth.get_synthetic_text b w))) =
       Ok (Some snippets) /\
     page' = set_synthetic_data page
               (Some {| poorly_written_article := Synth.poorly_written_article synthetic;
                        article_snippets := Some (Synth.snippets_dict snippets) |})) /\
  (forall b,
     body (details page) = Some b ->
     call_failed (fst (Synth.get_synthetic_text b w)) = true \/
     (exists synthetic, fst (Synth.get_synthetic_text b w) = Ok synthetic) /\
     call_failed (fst (Synth.get_article_snippets b
                         (snd (Synth.get_synthetic_text b w)))) = true ->
     page' = page /\ synthetic_data page' = None) /\
  (forall b synthetic snippets,
     body (details page) = Some b -> b <> "" ->
     fst (Synth.get_synthetic_text b w) = Ok (Some synthetic) ->
     fst (Synth.get_article_snippets b (snd (Synth.get_synthetic_text b w))) =
       Ok (Some snippets) ->
     page' = set_synthetic_data page
               (Some {| poorly_written_article := Synth.poorly_written_article synthetic;
                        article_snippets := Some (Synth.snippets_dict snippets) |})).
Proof.
  intros Hnone page'. subst page'. split; [|split].
  - destruct (process_page_frame page w) as [->|(Hhas & b & sd & Hb & Hsd & ->)];
      [now left|right].
    destruct (try_augment_whole _ _ _ Hsd) as (synthetic & snippets & Hs & Hn & ->).
    exists b, synthetic, snippets.
    split; [exact Hb|]. split; [eapply has_body_nonempty; eauto|].
    split; [exact Hs|]. split; [exact Hn | reflexivity].
  - intros b Hb Hfail.
    assert (Hr : exists e, fst (Synth.try_augment b w) = Raise e).
    { destruct Hfail as [Hf|[[synthetic Hs] Hf]].
      - now apply try_augment_rewrite_failed.
      - eapply try_augment_snippets_failed; eauto. }
    destruct Hr as [e Hr]. rewrite (process_page_failed _ _ _ _ Hb Hr). now split.
  - intros b synthetic snippets Hb Hne Hs Hn.
    rewrite (process_page_body _ _ _ Hb Hne).
    pose proof (try_augment_both _ _ _ _ Hs Hn) as E.
    destruct (Synth.try_augment b w) as [[sd|e] w1]; simpl in E; [|discriminate].
    now injection E as ->.
Qed.

End OneRecord.

Lemma augmentation_all_or_nothing_witness :
  let page := Sim.sim_page "P" (Some "bad") in
  fst (@Synth.process_page Sim.sim_model page 0%nat) = page /\
  synthetic_data (fst (@Synth.process_page Sim.sim_model page 0%nat)) = None.
Proof.
  intros page.
  apply (proj1 (proj2 (@augmentation_all_or_nothing Sim.sim_model page 0%nat eq_refl))
           "bad" eq_refl).
  left. vm_compute. reflexivity.
Defined.

(** ** The Synthesizer: batches (lines 79-105 and 200-228) *)

Section BatchArithmetic.

Lemma batches_zero (n bs : nat) : (0 < bs)%nat -> batches n bs = 0%nat -> n = 0%nat.
Proof.
  unfold batches. intros Hbs E.
  apply Nat.div_small_iff in E; lia.
Qed.

Lemma batches_one (n bs : nat) : (0 < n)%nat -> (n <= bs)%nat -> batches n bs = 1%nat.
Proof.
  unfold batches. intros Hn Hle. symmetry.
  apply (Nat.div_unique _ _ _ (n - 1)); lia.
Qed.

Lemma batches_more (n bs : nat) :
  (0 < bs)%nat -> (bs < n)%nat -> batches n bs = S (batches (n - bs) bs).
Proof.
  unfold batches. intros Hbs Hlt.
  replace (n + (bs - 1))%nat with ((n - bs + (bs - 1)) + 1 * bs)%nat by lia.
  rewrite Nat.div_add by lia. lia.
Qed.

End BatchArithmetic.

Section Batches.
Context `{Synth.LanguageModel}.

Lemma each_page_length (pages : list GovPage) (w : Synth.lm_world) :
  length (fst (each_page pages w)) = length pages.
Proof.
  revert w. induction pages as [|page pages IH]; intros w; [reflexivity|].
  simpl. destruct (Synth.process_page page w) as [page' w1].
  specialize (IH w1). destruct (each_page pages w1) as [rest' w2].
  simpl in *. now rewrite IH.
Qed.

(** The loop over a batch rewrites the pages of the batch in place. *)
Lemma for_page_in_seq (chunk : list GovPage) :
  forall (before after : list GovPage) (w : Synth.lm_world),
    Synth.for_page_in (seq (length before) (length chunk)) (before ++ chunk ++ after) w =
      (before ++ fst (each_page chunk w) ++ after, snd (each_page chunk w)).
Proof.
  induction chunk as [|page chunk IH]; intros before after w; [reflexivity|].
  cbn [length seq Synth.for_page_in each_page].
  change ((page :: chunk) ++ after) with (page :: chunk ++ after).
  rewrite (list_lookup_middle before (chunk ++ after) page (length before) eq_refl).
  destruct (Synth.process_page page w) as [page' w1].
  rewrite insert_app_r_alt by lia. rewrite Nat.sub_diag. cbn [insert list_insert app].
  replace (before ++ page' :: chunk ++ after)
    with ((before ++ [page']) ++ chunk ++ after) by now rewrite <- app_assoc.
  replace (S (length before)) with (length (before ++ [page']))
    by (rewrite length_app; simpl; lia).
  rewrite IH. destruct (each_page chunk w1) as [rest' w2]. simpl.
  now rewrite <- app_assoc.
Qed.

Lemma process_batch_at (before todo : list GovPage) (bs : nat) (w : Synth.lm_world) :
  Synth.process_batch (before ++ todo) (length before) bs w =
    (before ++ fst (each_page (take bs todo) w) ++ drop bs todo,
     seq (length before) (length (take bs todo)),
     snd (each_page (take bs todo) w)).
Proof.
  unfold Synth.process_batch.
  replace (Nat.min (length before + bs) (length (before ++ todo)) - length before)%nat
    with (length (take bs todo)) by (rewrite length_app, length_take; lia).
  pose proof (for_page_in_seq (take bs todo) before (drop bs todo) w) as E.
  rewrite take_drop in E. rewrite E. reflexivity.
Qed.

End Batches.

Section MainLoop.
Context `{Synth.LanguageModel}.

Lemma batches_nil (bs : nat) : (0 < bs)%nat -> batches 0 bs = 0%nat.
Proof. intros Hbs. unfold batches. apply Nat.div_small. lia. Qed.

(** The records one by one, cut after the first batch. *)
Lemma one_by_one_chunk (bs : nat) (todo : list GovPage) :
  forall (c : nat) (w : Synth.lm_world),
    (c < bs)%nat ->
    one_by_one bs c todo w =
      match drop (bs - c) todo with
      | [] => (fst (each_page (take (bs - c) todo) w),
               snd (each_page (take (bs - c) todo) w), [])
      | _ :: _ =>
          let '(rest', w2, ps) :=
            one_by_one bs 0 (drop (bs - c) todo)
              (Synth.lm_sleep 1 (snd (each_page (take (bs - c) todo) w))) in
          (fst (each_page (take (bs - c) todo) w) ++ rest', w2, 1%Q :: ps)
      end.
Proof.
  induction todo as [|page rest IH]; intros c w Hc.
  - rewrite drop_nil, take_nil. reflexivity.
  - replace (bs - c)%nat with (S (bs - S c)) by lia.
    cbn [take drop one_by_one each_page].
    destruct (Synth.process_page page w) as [page' w1].
    destruct (S c =? bs)%nat eqn:Eb.
    + apply Nat.eqb_eq in Eb. replace (bs - S c)%nat with 0%nat by lia.
      rewrite drop_0, take_0. cbn [each_page fst snd].
      destruct rest as [|r rest']; [reflexivity|].
      destruct (one_by_one bs 0 (r :: rest') (Synth.lm_sleep 1 w1)) as [[rest'' w2] ps].
      reflexivity.
    + apply Nat.eqb_neq in Eb.
      destruct rest as [|r rest'].
      * rewrite drop_nil, take_nil. reflexivity.
      * rewrite (IH (S c) w1) by lia.
        destruct (each_page (take (bs - S c) (r :: rest')) w1) as [chunk' w2].
        cbn [fst snd].
        destruct (drop (bs - S c) (r :: rest')) as [|r2 rest2]; [reflexivity|].
        destruct (one_by_one bs 0 (r2 :: rest2) (Synth.lm_sleep 1 w2)) as [[rest'' w3] ps].
        reflexivity.
Qed.

(** The loop over the batches is the run over the records one by one. *)
Lemma main_loop_batches (m : nat) :
  forall (bs j : nat) (before todo : list GovPage) (w : Synth.lm_world) (pz : list Q),
    (0 < bs)%nat ->
    m = batches (length todo) bs ->
    length before = (j * bs)%nat ->
    Synth.main_loop ((fun k => k * bs)%nat <$> seq j m) bs
      {| Synth.run_pages := before ++ todo;
         Synth.processed_pages := seq 0 (length before);
         Synth.run_world := w; Synth.pauses := pz |} =
      {| Synth.run_pages := before ++ fst (fst (one_by_one bs 0 todo w));
         Synth.processed_pages := seq 0 (length before + length todo);
         Synth.run_world := snd (fst (one_by_one bs 0 todo w));
         Synth.pauses := pz ++ snd (one_by_one bs 0 todo w) |} /\
    snd (one_by_one bs 0 todo w) = replicate (m - 1) 1%Q.
Proof.
  induction m as [|m IH]; intros bs j before todo w pz Hbs Hm Hlen.
  - symmetry in Hm. apply batches_zero in Hm; [|assumption].
    destruct todo; [|discriminate]. simpl.
    rewrite !app_nil_r, Nat.add_0_r. split; reflexivity.
  - assert (Htodo : (0 < length todo)%nat).
    { destruct todo; [|simpl; lia]. simpl in Hm. rewrite batches_nil in Hm; lia. }
    cbn [seq fmap list_fmap Synth.main_loop]. rewrite <- Hlen.
    cbn [Synth.run_pages Synth.run_world Synth.processed_pages Synth.pauses].
    rewrite process_batch_at.
    rewrite (one_by_one_chunk bs todo 0 w Hbs), Nat.sub_0_r.
    pose proof (each_page_length (take bs todo) w) as Hchunk.
    destruct (each_page (take bs todo) w) as [chunk' w1]. cbn [fst snd] in *.
    rewrite length_take in Hchunk.
    replace (length before + bs <? length (before ++ chunk' ++ drop bs todo))%nat
      with (bs <? length todo)%nat.
    2:{ rewrite !length_app, length_drop, Hchunk.
        destruct (Nat.ltb_spec bs (length todo));
          destruct (Nat.ltb_spec (length before + bs)
                      (length before + (Nat.min bs (length todo) + (length todo - bs))));
          try reflexivity; lia. }
    destruct (Nat.ltb_spec bs (length todo)) as [Hlt|Hge].
    + destruct (drop bs todo) as [|r rest] eqn:Ed.
      { apply (f_equal length) in Ed. rewrite length_drop in Ed. simpl in Ed. lia. }
      rewrite <- Ed.
      assert (Hm' : m = batches (length (drop bs todo)) bs).
      { rewrite length_drop. rewrite (batches_more _ _ Hbs Hlt) in Hm. lia. }
      assert (Hm1 : (0 < m)%nat).
      { destruct m; [|lia]. symmetry in Hm'. apply batches_zero in Hm'; [|assumption].
        rewrite Ed in Hm'. discriminate. }
      rewrite app_assoc.
      replace (seq 0 (length before) ++ seq (length before) (length (take bs todo)))
        with (seq 0 (length (before ++ chunk'))).
      2:{ rewrite length_app, Hchunk, length_take, seq_app. reflexivity. }
      destruct (IH bs (S j) (before ++ chunk') (drop bs todo) (Synth.lm_sleep 1 w1)
                  (pz ++ [1%Q]) Hbs Hm') as [E1 E2].
      { rewrite length_app, Hchunk. lia. }
      rewrite E1.
      destruct (one_by_one bs 0 (drop bs todo) (Synth.lm_sleep 1 w1)) as [[rest' w2] ps].
      cbn [fst snd] in *. split.
      * f_equal.
        -- now rewrite <- app_assoc.
        -- f_equal. rewrite length_app, Hchunk, length_drop. lia.
        -- now rewrite <- app_assoc.
      * rewrite E2. destruct m; [lia|]. simpl. now rewrite Nat.sub_0_r.
    + assert (Ed : drop bs todo = []) by (apply drop_ge; lia).
      rewrite Ed. rewrite (batches_one _ _ Htodo Hge) in Hm.
      injection Hm as ->. cbn [seq fmap list_fmap Synth.main_loop fst snd].
      rewrite !app_nil_r. split; [|reflexivity].
      f_equal. rewrite length_take, <- seq_app. f_equal. lia.
Qed.

Lemma dump_all (pages : list GovPage) :
  Synth.dump pages (seq 0 (length pages)) = pages.
Proof.
  unfold Synth.dump. induction pages as [|page pages IH] using rev_ind; [reflexivity|].
  rewrite length_app. simpl. rewrite seq_app, omap_app. simpl.
  rewrite list_lookup_middle by lia. f_equal.
  rewrite <- IH at 2. apply list_omap_ext.
  apply Forall_Forall2_diag, Forall_forall. intros k Hk%elem_of_seq.
  apply lookup_app_l. lia.
Qed.

Lemma one_by_one_length (bs : nat) (pages : list GovPage) :
  forall c w, length (fst (fst (one_by_one bs c pages w))) = length pages.
Proof.
  induction pages as [|page rest IH]; intros c w; [reflexivity|].
  cbn [one_by_one]. destruct (Synth.process_page page w) as [page' w1].
  destruct rest as [|r rest']; [reflexivity|].
  destruct (S c =? bs)%nat.
  - specialize (IH 0%nat (Synth.lm_sleep 1 w1)).
    destruct (one_by_one bs 0 (r :: rest') (Synth.lm_sleep 1 w1)) as [[rest'' w2] ps].
    simpl in *. now rewrite IH.
  - specialize (IH (S c) w1).
    destruct (one_by_one bs (S c) (r :: rest') w1) as [[rest'' w2] ps].
    simpl in *. now rewrite IH.
Qed.

(** What [main] saves and how often it sleeps. *)
Lemma main_one_by_one (pages : list GovPage) (w : Synth.lm_world) :
  Synth.saved (Synth.main pages w) = fst (fst (one_by_one 10 0 pages w)) /\
  Synth.slept (Synth.main pages w) = replicate (batches (length pages) 10 - 1) 1%Q /\
  Synth.final_world (Synth.main pages w) = snd (fst (one_by_one 10 0 pages w)).
Proof.
  unfold Synth.main.
  destruct (main_loop_batches (batches (length pages) 10) 10 0 [] pages w []) as [E1 E2];
    [lia | reflexivity | reflexivity |].
  change (range0 (length pages) 10)
    with ((fun k => k * 10)%nat <$> seq 0 (batches (length pages) 10)).
  cbn [app length seq Nat.add] in E1. rewrite E1.
  cbn [Synth.saved Synth.slept Synth.final_world Synth.run_pages
       Synth.processed_pages Synth.pauses Synth.run_world].
  rewrite E2. split; [|split; reflexivity].
  rewrite <- (one_by_one_length 10 pages 0 w). apply dump_all.
Qed.

End MainLoop.

Section Isolation.
Context `{Synth.LanguageModel}.

(** Each record is processed once, in the state in which it is reached. *)
Lemma one_by_one_lookup (bs : nat) (pages : list GovPage) :
  forall (n c : nat) (w : Synth.lm_world) (p : GovPage),
    pages !! n = Some p ->
    fst (fst (one_by_one bs c pages w)) !! n =
      Some (fst (Synth.process_page p (world_at bs c pages n w))).
Proof.
  induction pages as [|page rest IH]; intros n c w p Hp; [discriminate|].
  destruct n as [|n].
  - injection Hp as ->. cbn [one_by_one world_at].
    destruct (Synth.process_page p w) as [page' w1].
    destruct rest as [|r rest']; [reflexivity|].
    destruct (S c =? bs)%nat.
    + now destruct (one_by_one bs 0 (r :: rest') (Synth.lm_sleep 1 w1)) as [[rest'' w2] ps].
    + now destruct (one_by_one bs (S c) (r :: rest') w1) as [[rest'' w2] ps].
  - cbn [lookup list_lookup] in Hp. cbn [one_by_one world_at].
    destruct (Synth.process_page page w) as [page' w1]. cbn [snd].
    destruct rest as [|r rest']; [discriminate|].
    destruct (S c =? bs)%nat.
    + rewrite <- (IH n 0%nat (Synth.lm_sleep 1 w1) p Hp).
      now destruct (one_by_one bs 0 (r :: rest') (Synth.lm_sleep 1 w1)) as [[rest'' w2] ps].
    + rewrite <- (IH n (S c) w1 p Hp).
      now destruct (one_by_one bs (S c) (r :: rest') w1) as [[rest'' w2] ps].
Qed.

Lemma saved_lookup (pages : list GovPage) (w : Synth.lm_world) (n : nat) (p : GovPage) :
  pages !! n = Some p ->
  Synth.saved (Synth.main pages w) !! n =
    Some (fst (Synth.process_page p (world_at 10 0 pages n w))).
Proof.
  intros Hp. rewrite (proj1 (main_one_by_one pages w)).
  now apply one_by_one_lookup.
Qed.

Lemma saved_length (pages : list GovPage) (w : Synth.lm_world) :
  length (Synth.saved (Synth.main pages w)) = length pages.
Proof. rewrite (proj1 (main_one_by_one pages w)). apply one_by_one_length. Qed.


(** C7: what the Synthesizer saves is the input sequence, record for
    record at the same place, each one equal to its input except perhaps
    for [synthetic_data]; a record without a body is saved as it came. *)
Theorem synthesizer_frame (pages : list GovPage) (w : Synth.lm_world) :
  let out := Synth.saved (Synth.main pages w) in
  length out = length pages /\
  forall n p,
    pages !! n = Some p ->
    exists q,
      out !! n = Some q /\
      q = set_synthetic_data p (synthetic_data q) /\
      details q = details p /\
      (has_body p = false -> q = p).
Proof.
  intros out. subst out. split; [apply saved_length|].
  intros n p Hp. rewrite (saved_lookup _ _ _ _ Hp).
  eexists. split; [reflexivity|].
  destruct (process_page_frame p (world_at 10 0 pages n w))
    as [->|(Hb & b & sd & _ & _ & ->)].
  - split; [now rewrite set_synthetic_data_same|]. split; reflexivity.
  - split; [reflexivity|]. split; [reflexivity|]. rewrite Hb. discriminate.
Qed.

End Isolation.


Lemma synthesizer_frame_witness :
  let pages := [Sim.sim_page "A" (Some "fine"); Sim.sim_page "D" None] in
  exists q,
    @Synth.saved Sim.sim_model (@Synth.main Sim.sim_model pages 0%nat) !! 1%nat = Some q /\
    q = Sim.sim_page "D" None.
Proof.
  intros pages.
  destruct (proj2 (@synthesizer_frame Sim.sim_model pages 0%nat) 1%nat
              (Sim.sim_page "D" None) eq_refl) as (q & E & _ & _ & Hsame).
  exists q. split; [exact E|]. apply Hsame. reflexivity.
Defined.

(** ** Pacing (lines 74-77 of the Fetcher, 221-224 of the Synthesizer) *)

Lemma sim_clock_laws : @ClockLaws Sim.sim_network.
Proof.
  split.
  - intros url w. simpl. destruct (Sim.replies w); simpl; apply Qle_refl.
  - intros secs w _. simpl. apply Qle_refl.
Qed.

Section Pacing.
Context `{Network}.

Lemma batch_starts_snoc (tr : list event) (e : event) :
  batch_starts (tr ++ [e]) =
    batch_starts tr ++ match e with EvBatchStart t => [t] | _ => [] end.
Proof. unfold batch_starts. rewrite omap_app. now destruct e. Qed.

Lemma do_get_clock {L : ClockLaws} (url : string) (st : state) :
  (clock (st_world st) <= clock (st_world (snd (do_get url st))))%Q /\
  batch_starts (st_trace (snd (do_get url st))) = batch_starts (st_trace st).
Proof.
  unfold do_get. pose proof (get_monotone url (st_world st)) as Hm.
  destruct (requests_get url (st_world st)) as [g w1]. simpl in *.
  split; [exact Hm|]. rewrite batch_starts_snoc. apply app_nil_r.
Qed.

Lemma get_with_retry_clock {L : ClockLaws} (path : string) (st : state) :
  (clock (st_world st) <= clock (st_world (snd (get_with_retry path st))))%Q /\
  batch_starts (st_trace (snd (get_with_retry path st))) = batch_starts (st_trace st).
Proof.
  unfold get_with_retry.
  destruct (do_get_clock (api_url path) st) as [Hc Ht].
  destruct (do_get (api_url path) st) as [[|r] st1]; simpl in *; [now split|].
  destruct (status_code r =? 429)%Z; [|now split].
  destruct (do_get_clock (api_url path) (do_sleep 5 st1)) as [Hc2 Ht2].
  destruct (do_get (api_url path) (do_sleep 5 st1)) as [g st2]. simpl in *.
  pose proof (sleep_at_least 5 (st_world st1)) as Hs.
  split.
  - assert (0 <= 5)%Q by (unfold Qle; simpl; lia). lra.
  - rewrite Ht2, batch_starts_snoc, app_nil_r. exact Ht.
Qed.

Lemma query_batch_clock {L : ClockLaws} (batch : list string) :
  forall (results : list result) (st : state),
    (clock (st_world st) <= clock (st_world (snd (query_batch batch results st))))%Q /\
    batch_starts (st_trace (snd (query_batch batch results st))) =
      batch_starts (st_trace st).
Proof.
  induction batch as [|path batch IH]; intros results st.
  - simpl. split; [apply Qle_refl | reflexivity].
  - simpl. pose proof (query_path_state path st) as Es.
    destruct (get_with_retry_clock path st) as [Hc Ht]. rewrite <- Es in Hc, Ht.
    destruct (query_path path st) as [[r|e] st1]; simpl in *; [|now split].
    destruct (IH (results ++ [r]) st1) as [Hc2 Ht2].
    split; [lra | congruence].
Qed.

Lemma throttle_clock {L : ClockLaws} (batch_start : Q) (st : state) :
  (batch_start <= clock (st_world st))%Q ->
  (batch_start + 1 <= clock (st_world (throttle batch_start st)))%Q /\
  batch_starts (st_trace (throttle batch_start st)) = batch_starts (st_trace st).
Proof.
  intros Hle. unfold throttle.
  destruct (Qlt_le_dec (clock (st_world st) - batch_start) 1) as [Hlt|Hge].
  - simpl. split; [|rewrite batch_starts_snoc; apply app_nil_r].
    pose proof (sleep_at_least (1 - (clock (st_world st) - batch_start)) (st_world st)) as Hs.
    lra.
  - split; [lra | reflexivity].
Qed.

Lemma paced_snoc (ts : list Q) (t : Q) :
  paced ts -> last_before ts 1 t -> paced (ts ++ [t]).
Proof.
  intros Hp Hl i ti tj Hi Hj.
  destruct (decide (S i < length ts)%nat) as [Hlt|Hge].
  - rewrite lookup_app_l in Hi, Hj by lia. eauto.
  - assert (S i = length ts) as Ei.
    { apply lookup_lt_Some in Hj. rewrite length_app in Hj. simpl in Hj. lia. }
    rewrite lookup_app_l in Hi by lia. rewrite lookup_app_r in Hj by lia.
    rewrite Ei, Nat.sub_diag in Hj. injection Hj as <-.
    apply Hl. rewrite last_lookup, <- Ei. exact Hi.
Qed.

Lemma batch_loop_paced {L : ClockLaws} (starts : list nat) :
  forall (paths : list string) (bs : nat) (results : list result) (st : state),
    paced (batch_starts (st_trace st)) ->
    last_before (batch_starts (st_trace st)) 1 (clock (st_world st)) ->
    paced (batch_starts (st_trace (snd (batch_loop starts paths bs results st)))) /\
    ((exists rs, fst (batch_loop starts paths bs results st) = Ok rs) ->
     length (batch_starts (st_trace (snd (batch_loop starts paths bs results st)))) =
       (length (batch_starts (st_trace st)) + length starts)%nat).
Proof.
  induction starts as [|i later IH]; intros paths bs results st Hp Hl.
  - simpl. split; [exact Hp | intros _; lia].
  - cbn [batch_loop].
    set (st0 := log (EvBatchStart (clock (st_world st))) st).
    assert (Hts0 : batch_starts (st_trace st0) =
                   batch_starts (st_trace st) ++ [clock (st_world st)]).
    { unfold st0, log. simpl. apply batch_starts_snoc. }
    assert (Hw0 : st_world st0 = st_world st) by reflexivity.
    clearbody st0.
    destruct (query_batch_clock (slice paths i (i + bs)) results st0) as [Hc Ht].
    rewrite Hw0 in Hc.
    destruct (query_batch (slice paths i (i + bs)) results st0) as [[results1|e] st1];
      cbn [fst snd] in Hc, Ht |- *.
    + destruct (throttle_clock (clock (st_world st)) st1 Hc) as [Hc2 Ht2].
      destruct (IH paths bs results1 (throttle (clock (st_world st)) st1)) as [Hp' Hn'].
      * rewrite Ht2, Ht, Hts0. now apply paced_snoc.
      * rewrite Ht2, Ht, Hts0. intros t0 Hlast. rewrite last_snoc in Hlast.
        injection Hlast as <-. exact Hc2.
      * split; [exact Hp'|]. intros Hok. rewrite (Hn' Hok), Ht2, Ht, Hts0.
        rewrite length_app. simpl. lia.
    + split.
      * rewrite Ht, Hts0. now apply paced_snoc.
      * intros [rs Hrs]. discriminate.
Qed.

Lemma paced_distance (ts : list Q) :
  paced ts ->
  forall (d i : nat) (ti tj : Q),
    ts !! i = Some ti -> ts !! (i + d)%nat = Some tj ->
    (ti + inject_Z (Z.of_nat d) <= tj)%Q.
Proof.
  intros Hp. induction d as [|d IH]; intros i ti tj Hi Hj.
  - rewrite Nat.add_0_r, Hi in Hj. injection Hj as <-.
    change (inject_Z (Z.of_nat 0)) with 0%Q. lra.
  - destruct (ts !! (i + d)%nat) as [tm|] eqn:Em.
    2:{ apply lookup_ge_None in Em. apply lookup_lt_Some in Hj. lia. }
    specialize (IH i ti tm Hi Em).
    replace (i + S d)%nat with (S (i + d)) in Hj by lia.
    pose proof (Hp _ _ _ Em Hj) as Hstep.
    rewrite Nat2Z.inj_succ. unfold Z.succ. rewrite inject_Z_plus.
    change (inject_Z 1) with 1%Q. lra.
Qed.

End Pacing.

Section PacedRuns.
Context `{Network} `{Synth.LanguageModel}.

Lemma main_slept_one_by_one (pages : list GovPage) (w : Synth.lm_world) :
  Synth.slept (Synth.main pages w) = snd (one_by_one 10 0 pages w).
Proof.
  unfold Synth.main.
  destruct (main_loop_batches (batches (length pages) 10) 10 0 [] pages w []) as [E1 _];
    [lia | reflexivity | reflexivity |].
  change (range0 (length pages) 10)
    with ((fun k => k * 10)%nat <$> seq 0 (batches (length pages) 10)).
  cbn [app length seq Nat.add] in E1. rewrite E1. reflexivity.
Qed.

(** A run of at most one batch: the records in order, and no pause. *)
Lemma main_last_batch (pages : list GovPage) (w : Synth.lm_world) :
  (length pages <= 10)%nat ->
  Synth.saved (Synth.main pages w) = fst (each_page pages w) /\
  Synth.final_world (Synth.main pages w) = snd (each_page pages w) /\
  Synth.slept (Synth.main pages w) = [].
Proof.
  intros Hle. destruct (main_one_by_one pages w) as (E1 & _ & E3).
  rewrite E1, E3, main_slept_one_by_one.
  rewrite (one_by_one_chunk 10 pages 0 w) by lia.
  rewrite Nat.sub_0_r, drop_ge, take_ge by lia. now repeat split.
Qed.

(** A full batch with more to come: the batch, one pause, the rest. *)
Lemma main_first_batch (first rest : list GovPage) (w : Synth.lm_world) :
  length first = 10%nat -> rest <> [] ->
  let w1 := Synth.lm_sleep 1 (snd (each_page first w)) in
  Synth.saved (Synth.main (first ++ rest) w) =
    fst (each_page first w) ++ Synth.saved (Synth.main rest w1) /\
  Synth.final_world (Synth.main (first ++ rest) w) = Synth.final_world (Synth.main rest w1) /\
  Synth.slept (Synth.main (first ++ rest) w) = 1%Q :: Synth.slept (Synth.main rest w1).
Proof.
  intros Hlen Hne w1. subst w1.
  destruct (main_one_by_one (first ++ rest) w) as (E1 & _ & E3).
  destruct (main_one_by_one rest (Synth.lm_sleep 1 (snd (each_page first w))))
    as (F1 & _ & F3).
  rewrite E1, E3, F1, F3, !main_slept_one_by_one.
  rewrite (one_by_one_chunk 10 (first ++ rest) 0 w) by lia.
  rewrite Nat.sub_0_r, <- Hlen, drop_app_length, take_app_length.
  destruct rest as [|r rest']; [contradiction|].
  destruct (one_by_one (length first) 0 (r :: rest')
              (Synth.lm_sleep 1 (snd (each_page first w)))) as [[rest'' w2] ps].
  now repeat split.
Qed.

(** C9: in the Fetcher every batch starts at least one second after the
    batch before it, so that over a run of [B] batches the last one starts
    at least [B - 1] seconds after the first. In the Synthesizer the run
    sleeps one second exactly [B - 1] times, and the sleeps are where the
    run by batches puts them: a run of at most one batch processes its
    records and does not sleep, so there is no pause after the last
    batch; a run with a full first batch and more to come processes that
    batch, sleeps one second, and goes on from the state so reached as a
    run on the rest. *)
Theorem batches_are_paced {L : ClockLaws} (paths : list string) (w : world)
  (pages : list GovPage) (lw : Synth.lm_world) :
  let run := batch_query_govuk_api paths 10 {| st_world := w; st_trace := [] |} in
  let starts := batch_starts (st_trace (snd run)) in
  ((exists results, fst run = Ok results) ->
   length starts = batches (length paths) 10) /\
  (forall i j ti tj,
     (i <= j)%nat -> starts !! i = Some ti -> starts !! j = Some tj ->
     (ti + inject_Z (Z.of_nat (j - i)) <= tj)%Q) /\
  Synth.slept (Synth.main pages lw) = replicate (batches (length pages) 10 - 1) 1%Q /\
  Synth.final_world (Synth.main pages lw) = snd (fst (one_by_one 10 0 pages lw)) /\
  ((length pages <= 10)%nat ->
   Synth.final_world (Synth.main pages lw) = snd (each_page pages lw) /\
   Synth.slept (Synth.main pages lw) = []) /\
  (forall first rest,
     pages = first ++ rest -> length first = 10%nat -> rest <> [] ->
     let lw1 := Synth.lm_sleep 1 (snd (each_page first lw)) in
     Synth.saved (Synth.main pages lw) =
       fst (each_page first lw) ++ Synth.saved (Synth.main rest lw1) /\
     Synth.final_world (Synth.main pages lw) = Synth.final_world (Synth.main rest lw1) /\
     Synth.slept (Synth.main pages lw) = 1%Q :: Synth.slept (Synth.main rest lw1)).
Proof.
  intros run starts. subst starts run.
  destruct (batch_loop_paced (range0 (length paths) 10) paths 10 []
              {| st_world := w; st_trace := [] |}) as [Hp Hn].
  { intros i ti tj Hi. discriminate. }
  { intros t0 Ht. discriminate. }
  change (batch_query_govuk_api paths 10 {| st_world := w; st_trace := [] |})
    with (batch_loop (range0 (length paths) 10) paths 10 []
            {| st_world := w; st_trace := [] |}).
  split; [|split; [|split; [|split; [|split]]]].
  - intros Hok. rewrite (Hn Hok). unfold range0. rewrite length_fmap, length_seq.
    reflexivity.
  - intros i j ti tj Hij Hi Hj.
    apply (paced_distance _ Hp (j - i) i); [exact Hi|].
    now replace (i + (j - i))%nat with j by lia.
  - apply (main_one_by_one pages lw).
  - apply (main_one_by_one pages lw).
  - intros Hle. destruct (main_last_batch pages lw Hle) as (_ & E2 & E3). now split.
  - intros first rest -> Hlen Hne. now apply main_first_batch.
Qed.

End PacedRuns.

Lemma batches_are_paced_witness :
  let paths := ["/1"; "/2"; "/3"; "/4"; "/5"; "/6"; "/7"; "/8"; "/9"; "/10"; "/11"] in
  let pages := (fun t => Sim.sim_page t (Some "text")) <$> paths in
  length (batch_starts (st_trace (snd
    (@batch_query_govuk_api Sim.sim_network paths 10 (Sim.sim_state []))))) = 2%nat /\
  @Synth.slept Sim.sim_model (@Synth.main Sim.sim_model pages 0%nat) = [1%Q] /\
  @Synth.slept Sim.sim_model (@Synth.main Sim.sim_model pages 0%nat) =
    1%Q :: @Synth.slept Sim.sim_model
             (@Synth.main Sim.sim_model [Sim.sim_page "/11" (Some "text")]
                (@Synth.lm_sleep Sim.sim_model 1
                   (snd (@each_page Sim.sim_model (take 10 pages) 0%nat)))).
Proof.
  intros paths pages.
  destruct (@batches_are_paced Sim.sim_network Sim.sim_model sim_clock_laws
              paths ({| Sim.replies := []; Sim.now := 0 |} : @world Sim.sim_network)
              pages 0%nat) as (E1 & _ & E3 & _ & _ & E6).
  split; [|split].
  - apply E1. eexists. vm_compute. reflexivity.
  - exact E3.
  - apply (E6 (take 10 pages) [Sim.sim_page "/11" (Some "text")]).
    + reflexivity.
    + reflexivity.
    + discriminate.
Defined.

(** * Further properties of the code *)

(** ** What [batch_query_govuk_api] returns (lines 31-79) *)

Section QueryResults.
Context `{Network}.

Lemma query_path_result (path : string) (st : state) (r : result) :
  fst (query_path path st) = Ok r ->
  fst r = path /\
  forall data, snd r = Some data ->
    get_in data "document_type" ["placeholder"; "redirect"] = false.
Proof.
  unfold query_path. destruct (get_with_retry path st) as [[|response] st1]; simpl.
  - intros [= <-]. split; [reflexivity | discriminate].
  - destruct (raise_for_status response); simpl.
    { intros [= <-]. split; [reflexivity | discriminate]. }
    destruct (json_body response) as [[]|]; simpl; try discriminate.
    + destruct (get_in d "document_type" ["placeholder"; "redirect"]) eqn:E; simpl.
      * intros [= <-]. split; [reflexivity | discriminate].
      * intros [= <-]. split; [reflexivity|]. simpl. now intros data [= <-].
    + intros [= <-]. split; [reflexivity | discriminate].
Qed.

Lemma query_batch_results (batch : list string) :
  forall (results : list result) (st : state) (rs : list result),
    fst (query_batch batch results st) = Ok rs ->
    exists news,
      rs = results ++ news /\ fst <$> news = batch /\
      Forall (fun r => forall data, snd r = Some data ->
                get_in data "document_type" ["placeholder"; "redirect"] = false) news.
Proof.
  induction batch as [|path batch IH]; intros results st rs; simpl.
  - intros [= <-]. exists []. rewrite app_nil_r. repeat split. constructor.
  - pose proof (query_path_result path st) as Hq.
    destruct (query_path path st) as [[r|e] st1]; simpl in *; [|discriminate].
    intros Hrs. destruct (IH _ _ _ Hrs) as (news & -> & Hf & Hall).
    destruct (Hq r eq_refl) as [Hp Hd].
    exists (r :: news). rewrite <- app_assoc. split; [reflexivity|].
    split; [rewrite fmap_cons, Hp, Hf; reflexivity | now constructor].
Qed.

Lemma batch_loop_results (starts : list nat) :
  forall (paths : list string) (bs : nat) (results : list result) (st : state)
         (rs : list result),
    fst (batch_loop starts paths bs results st) = Ok rs ->
    exists news,
      rs = results ++ news /\
      fst <$> news = concat ((fun i => slice paths i (i + bs)) <$> starts) /\
      Forall (fun r => forall data, snd r = Some data ->
                get_in data "document_type" ["placeholder"; "redirect"] = false) news.
Proof.
  induction starts as [|i later IH]; intros paths bs results st rs.
  - simpl. intros [= <-]. exists []. rewrite app_nil_r. repeat split. constructor.
  - cbn [batch_loop].
    pose proof (query_batch_results (slice paths i (i + bs)) results
                  (log (EvBatchStart (clock (st_world st))) st)) as Hb.
    destruct (query_batch (slice paths i (i + bs)) results
                (log (EvBatchStart (clock (st_world st))) st)) as [[results1|e] st1];
      simpl in *; [|discriminate].
    intros Hrs. destruct (Hb _ eq_refl) as (n1 & -> & Hf1 & Hall1).
    destruct (IH _ _ _ _ _ Hrs) as (n2 & -> & Hf2 & Hall2).
    exists (n1 ++ n2). rewrite <- app_assoc. split; [reflexivity|].
    split; [rewrite fmap_app, Hf1, Hf2; reflexivity | now apply Forall_app].
Qed.

End QueryResults.

(** The batches cut the list into consecutive pieces that cover it. *)
Lemma slices_cover {A} (l : list A) (bs : nat) :
  (0 < bs)%nat ->
  concat ((fun i => slice l i (i + bs)) <$> range0 (length l) bs) = l.
Proof.
  intros Hbs.
  assert (G : forall m j,
             m = batches (length l - j * bs) bs ->
             concat ((fun i => slice l i (i + bs)) <$>
                     ((fun k => k * bs)%nat <$> seq j m)) = drop (j * bs) l).
  { induction m as [|m IH]; intros j Hm.
    - symmetry in Hm. apply batches_zero in Hm; [|assumption].
      simpl. symmetry. apply drop_ge. lia.
    - cbn [seq fmap list_fmap concat]. unfold slice at 1.
      replace (j * bs + bs - j * bs)%nat with bs by lia.
      rewrite IH.
      + replace (S j * bs)%nat with (j * bs + bs)%nat by lia.
        rewrite <- drop_drop. apply take_drop.
      + destruct (Nat.le_gt_cases (length l - j * bs) bs) as [Hle|Hgt].
        * assert (0 < length l - j * bs)%nat.
          { destruct (length l - j * bs)%nat eqn:E; [|lia].
            rewrite batches_nil in Hm by assumption. discriminate. }
          rewrite batches_one in Hm by assumption. injection Hm as ->.
          replace (length l - S j * bs)%nat with 0%nat by lia.
          now rewrite batches_nil.
        * rewrite (batches_more _ _ Hbs Hgt) in Hm. injection Hm as ->.
          f_equal. lia. }
  specialize (G (batches (length l) bs) 0%nat).
  rewrite Nat.sub_0_r in G. simpl in G. apply G. reflexivity.
Qed.

Section QueryTheorems.
Context `{Network}.

(** X1: a query that returns gives one result per path, in the order
    of the paths. *)
Theorem query_results_follow_paths (paths : list string) (bs : nat) (st st1 : state)
  (results : list result) :
  batch_query_govuk_api paths bs st = (Ok results, st1) ->
  fst <$> results = paths /\ length results = length paths.
Proof.
  intros Hq. assert (Hbs : (0 < bs)%nat).
  { destruct bs; [discriminate | lia]. }
  assert (E : fst <$> results = paths).
  { unfold batch_query_govuk_api in Hq. destruct bs as [|bs']; [discriminate|].
    destruct (batch_loop_results (range0 (length paths) (S bs')) paths (S bs') [] st
                results) as (news & -> & Hf & _).
    { now rewrite Hq. }
    simpl. rewrite Hf. now apply slices_cover. }
  split; [exact E|]. rewrite <- E. now rewrite length_fmap.
Qed.

(** X2: no response of type "placeholder" or "redirect" is among the
    results. *)
Theorem query_results_without_placeholders (paths : list string) (bs : nat)
  (st st1 : state) (results : list result) :
  batch_query_govuk_api paths bs st = (Ok results, st1) ->
  forall path data,
    (path, Some data) ∈ results ->
    get_is data "document_type" "placeholder" = false /\
    get_is data "document_type" "redirect" = false.
Proof.
  intros Hq path data Hin.
  unfold batch_query_govuk_api in Hq. destruct bs as [|bs']; [discriminate|].
  destruct (batch_loop_results (range0 (length paths) (S bs')) paths (S bs') [] st
              results) as (news & -> & _ & Hall).
  { now rewrite Hq. }
  simpl in Hin. rewrite Forall_forall in Hall.
  specialize (Hall _ Hin data eq_refl). unfold get_in in Hall. simpl in Hall.
  destruct (get_is data "document_type" "placeholder"); [discriminate|].
  destruct (get_is data "document_type" "redirect"); [discriminate|]. now split.
Qed.

End QueryTheorems.

Lemma query_results_follow_paths_witness :
  let paths := ["/a"; "/b"; "/c"] in
  exists results,
    fst (@batch_query_govuk_api Sim.sim_network paths 2 (Sim.sim_state [])) = Ok results /\
    fst <$> results = paths.
Proof.
  intros paths. exists [("/a", None); ("/b", None); ("/c", None)].
  split; [vm_compute; reflexivity|].
  eapply (@query_results_follow_paths Sim.sim_network paths 2 (Sim.sim_state [])).
  vm_compute. reflexivity.
Defined.

Lemma query_results_without_placeholders_witness :
  let data : gmap string json := {[ "document_type" := JStr "answer" ]} in
  get_is data "document_type" "placeholder" = false /\
  get_is data "document_type" "redirect" = false.
Proof.
  intros data.
  set (st := Sim.sim_state [Sim.answer 200 {[ "document_type" := JStr "placeholder" ]};
                            Sim.answer 200 data]).
  assert (Hq : @batch_query_govuk_api Sim.sim_network ["/a"; "/b"] 10 st =
               (Ok [("/a", None); ("/b", Some data)],
                snd (@batch_query_govuk_api Sim.sim_network ["/a"; "/b"] 10 st))).
  { vm_compute. reflexivity. }
  apply (@query_results_without_placeholders Sim.sim_network _ _ _ _ _ Hq "/b" data).
  apply list_elem_of_further, list_elem_of_here.
Defined.

Section Crash.
Context `{Builtins} `{Libraries} `{Network}.

Lemma query_batch_app (pre post : list string) :
  forall (results : list result) (st : state),
    query_batch (pre ++ post) results st =
      match query_batch pre results st with
      | (Ok results1, st1) => query_batch post results1 st1
      | (Raise e, st1) => (Raise e, st1)
      end.
Proof.
  induction pre as [|path pre IH]; intros results st; [reflexivity|].
  simpl. destruct (query_path path st) as [[r|e] st1]; [apply IH | reflexivity].
Qed.

Lemma batch_loop_app (done later : list nat) :
  forall (paths : list string) (bs : nat) (results : list result) (st : state),
    batch_loop (done ++ later) paths bs results st =
      match batch_loop done paths bs results st with
      | (Ok results1, st1) => batch_loop later paths bs results1 st1
      | (Raise e, st1) => (Raise e, st1)
      end.
Proof.
  induction done as [|i done IH]; intros paths bs results st; [reflexivity|].
  cbn [app batch_loop].
  destruct (query_batch (slice paths i (i + bs)) results
              (log (EvBatchStart (clock (st_world st))) st)) as [[results1|e] st1];
    [apply IH | reflexivity].
Qed.

(** X3: when the body of an answer is JSON but not an object, [data.get]
    raises an [AttributeError] that nothing catches, whichever path of
    whichever batch the answer is for: once the batches before it and the
    paths before it in its batch have gone through, the query, and with
    it [process_pages] and [main], end there, in the state reached right
    after that request. *)
Theorem non_object_body_ends_run (paths : list string) (st st1 st2 st3 : state)
  (done later : list nat) (i : nat) (pre post : list string) (path : string)
  (results1 results2 : list result) (r : Response) (v : json) :
  range0 (length paths) 10 = done ++ i :: later ->
  batch_loop done paths 10 [] st = (Ok results1, st1) ->
  slice paths i (i + 10) = pre ++ path :: post ->
  query_batch pre results1 (log (EvBatchStart (clock (st_world st1))) st1) =
    (Ok results2, st2) ->
  get_with_retry path st2 = (GetResponse r, st3) ->
  raise_for_status r = false ->
  json_body r = Some v ->
  (forall d, v <> JDict d) ->
  batch_query_govuk_api paths 10 st = (Raise AttributeError, st3) /\
  (forall df, Path <$> df = paths ->
     process_pages df st = (Uncaught AttributeError, st3)) /\
  (forall df, Path <$> drop_duplicates df = paths ->
     main df st = (Uncaught AttributeError, st3)).
Proof.
  intros Hstarts Hdone Hslice Hpre Hg Hs Hj Hv.
  assert (Hq : query_path path st2 = (Raise AttributeError, st3)).
  { unfold query_path. rewrite Hg, Hs, Hj. destruct v; try reflexivity.
    now destruct (Hv d). }
  assert (Hb : batch_query_govuk_api paths 10 st = (Raise AttributeError, st3)).
  { unfold batch_query_govuk_api. rewrite Hstarts, batch_loop_app, Hdone.
    cbn [batch_loop]. rewrite Hslice, query_batch_app, Hpre.
    cbn [query_batch]. now rewrite Hq. }
  assert (Hp : forall df, Path <$> df = paths ->
                 process_pages df st = (Uncaught AttributeError, st3)).
  { intros df Hdf. unfold process_pages. now rewrite Hdf, Hb. }
  split; [exact Hb|]. split; [exact Hp|].
  intros df Hdf. unfold main. now rewrite (Hp _ Hdf).
Qed.

(** X4: the loop of [process_pages] lets no exception out and knows one
    exit code: it returns, or it ends the process with [sys.exit(1)]. *)
Theorem process_results_returns_or_exits_1 (results : list result)
  (gov_pages : list GovPage) (skipped : gmap string nat) :
  (exists out, process_results results gov_pages skipped = Returned out) \/
  process_results results gov_pages skipped = Exited 1.
Proof.
  revert gov_pages skipped.
  induction results as [|[path [response|]] results IH]; intros gov_pages skipped; simpl.
  - left. eauto.
  - destruct (bool_decide (response = ∅)); [apply IH|].
    destruct (get_in response "document_type" SKIP_TYPES); [apply IH|].
    destruct (try_page response); [apply IH | now right | now right].
  - apply IH.
Qed.

Lemma process_results_returned (results : list result) :
  forall gov_pages skipped gov_pages' skipped',
    process_results results gov_pages skipped = Returned (gov_pages', skipped') ->
    gov_pages' = gov_pages ++ omap View.kept_page results.
Proof.
  induction results as [|[path [response|]] results IH];
    intros gov_pages skipped gov_pages' skipped'; simpl.
  - intros [= <- _]. now rewrite app_nil_r.
  - destruct (bool_decide (response = ∅)); [apply IH|].
    destruct (get_in response "document_type" SKIP_TYPES); [apply IH|].
    destruct (try_page response); try discriminate.
    intros Hrun. rewrite (IH _ _ _ _ Hrun). now rewrite <- app_assoc.
  - apply IH.
Qed.

Lemma kept_page_body (r : result) (gov_page : GovPage) :
  View.kept_page r = Some gov_page ->
  exists b, b <> "" /\ body (details gov_page) = Some (convert_html_to_markdown b).
Proof.
  destruct r as [path [response|]]; simpl; [|discriminate].
  destruct (bool_decide (response = ∅)); [discriminate|].
  destruct (get_in response "document_type" SKIP_TYPES); [discriminate|].
  unfold try_page. destruct (normalize_guide response); [|discriminate].
  destruct (GovPage_validate a) as [p|]; [|discriminate].
  destruct (body (details p)) as [b|]; [|discriminate].
  destruct (String.eqb b "") eqn:E; simpl; [discriminate|].
  intros [= <-]. exists b. split; [|reflexivity].
  intros ->. discriminate.
Qed.

(** X5: when the loop returns, the records it gives are the records of
    the results that were kept, in the order of the results, after the
    records that were there before. *)
Theorem output_follows_results (results : list result) (gov_pages gov_pages' : list GovPage)
  (skipped skipped' : gmap string nat) :
  process_results results gov_pages skipped = Returned (gov_pages', skipped') ->
  gov_pages' = gov_pages ++ omap View.kept_page results.
Proof. apply process_results_returned. Qed.

(** X6: every record that [process_pages] returns has a body, and this
    body is the markdown made from a non-empty HTML body. *)
Theorem output_pages_have_bodies (results : list result) (gov_pages : list GovPage)
  (skipped : gmap string nat) :
  process_results results [] ∅ = Returned (gov_pages, skipped) ->
  Forall (fun gov_page =>
            exists b, b <> "" /\
              body (details gov_page) = Some (convert_html_to_markdown b)) gov_pages.
Proof.
  intros Hrun. rewrite (process_results_returned _ _ _ _ _ Hrun). simpl.
  apply Forall_forall. intros p Hp.
  apply list_elem_of_omap in Hp as (r & _ & Hr).
  eapply kept_page_body, Hr.
Qed.

Lemma tally_step (skipped : gmap string nat) (t : string) :
  In t SKIP_TYPES ->
  (default 0 (<[t := (default 0 (skipped !! t) + 1)%nat]> skipped !! "government") +
   default 0 (<[t := (default 0 (skipped !! t) + 1)%nat]> skipped
                !! "mainstream_browse_page") =
   S (default 0 (skipped !! "government") +
      default 0 (skipped !! "mainstream_browse_page")))%nat.
Proof.
  intros [<-|[<-|[]]].
  - rewrite lookup_insert_eq, lookup_insert_ne by discriminate. simpl. lia.
  - rewrite lookup_insert_eq, lookup_insert_ne by discriminate. simpl. lia.
Qed.

Lemma accounted_from (results : list result) :
  forall gov_pages skipped gov_pages' skipped',
    process_results results gov_pages skipped = Returned (gov_pages', skipped') ->
    (length results + length gov_pages +
     (default 0 (skipped !! "government") +
      default 0 (skipped !! "mainstream_browse_page")) =
     length (List.filter View.passed_over results) + length gov_pages' +
     (default 0 (skipped' !! "government") +
      default 0 (skipped' !! "mainstream_browse_page")))%nat.
Proof.
  induction results as [|[path [response|]] results IH];
    intros gov_pages skipped gov_pages' skipped'; simpl.
  - intros [= <- <-]. lia.
  - destruct (bool_decide (response = ∅)) eqn:Ee; simpl.
    { intros Hrun. specialize (IH _ _ _ _ Hrun). lia. }
    destruct (get_in response "document_type" SKIP_TYPES) eqn:Es.
    + intros Hrun. specialize (IH _ _ _ _ Hrun).
      rewrite tally_step in IH by (apply (doc_type_of_skipped _ Es)). lia.
    + destruct (try_page response); try discriminate.
      intros Hrun. specialize (IH _ _ _ _ Hrun). rewrite length_app in IH.
      simpl in IH. lia.
  - intros Hrun. specialize (IH _ _ _ _ Hrun). lia.
Qed.

(** X7: in a run that returns every result is accounted for once: it
    was passed over (nothing fetched, or an empty object), or counted
    under one of the two skipped types, or turned into a record. *)
Theorem every_result_is_accounted (results : list result) (gov_pages : list GovPage)
  (skipped : gmap string nat) :
  process_results results [] ∅ = Returned (gov_pages, skipped) ->
  (length results =
   length (List.filter View.passed_over results) +
   (default 0 (skipped !! "government") +
    default 0 (skipped !! "mainstream_browse_page")) +
   length gov_pages)%nat.
Proof.
  intros Hrun. pose proof (accounted_from _ _ _ _ _ Hrun) as E.
  rewrite !lookup_empty in E. simpl in E. lia.
Qed.

End Crash.

Lemma non_object_body_ends_run_witness :
  let df := [ {| Path := "/a"; other_cells := [] |}; {| Path := "/b"; other_cells := [] |};
              {| Path := "/c"; other_cells := [] |} ] in
  let data : gmap string json := {[ "document_type" := JStr "answer" ]} in
  let st := Sim.sim_state [Sim.answer 200 data;
                           GetResponse {| status_code := 200; json_body := Some (JList []) |};
                           Sim.answer 200 data] in
  fst (@process_pages Sim.sim_builtins Sim.sim_libraries Sim.sim_network df st) =
    Uncaught AttributeError.
Proof.
  intros df data st.
  set (st0 := @log Sim.sim_network (EvBatchStart (@clock Sim.sim_network (st_world st))) st).
  set (st2 := snd (@query_batch Sim.sim_network ["/a"] [] st0)).
  set (st3 := snd (@get_with_retry Sim.sim_network "/b" st2)).
  assert (H1 : @query_batch Sim.sim_network ["/a"] [] st0 = (Ok [("/a", Some data)], st2)).
  { vm_compute. reflexivity. }
  assert (H2 : @get_with_retry Sim.sim_network "/b" st2 =
               (GetResponse {| status_code := 200; json_body := Some (JList []) |}, st3)).
  { vm_compute. reflexivity. }
  rewrite (proj1 (proj2 (@non_object_body_ends_run Sim.sim_builtins Sim.sim_libraries
                           Sim.sim_network ["/a"; "/b"; "/c"] st st st2 st3 [] [] 0%nat
                           ["/a"] ["/c"] "/b" [] [("/a", Some data)]
                           {| status_code := 200; json_body := Some (JList []) |} (JList [])
                           eq_refl eq_refl eq_refl H1 H2 eq_refl eq_refl
                           ltac:(discriminate))) df eq_refl).
  reflexivity.
Defined.

Lemma output_follows_results_witness :
  let results := [("/g", Some (Sim.page_doc "government" ∅));
                  ("/a", Some (Sim.page_doc "answer" {[ "body" := JStr "<p>a</p>" ]}));
                  ("/x", None)] in
  exists gov_pages,
    gov_pages = [] ++ omap (@View.kept_page Sim.sim_builtins Sim.sim_libraries) results /\
    length gov_pages = 1%nat.
Proof.
  intros results. eexists. split.
  - eapply (@output_follows_results Sim.sim_builtins Sim.sim_libraries results [] _ ∅).
    vm_compute. reflexivity.
  - reflexivity.
Defined.

Lemma output_pages_have_bodies_witness :
  let results := [("/a", Some (Sim.page_doc "answer" {[ "body" := JStr "<p>a</p>" ]}))] in
  exists gov_pages,
    Forall (fun gov_page =>
              exists b, b <> "" /\
                body (details gov_page) =
                  Some (@convert_html_to_markdown Sim.sim_libraries b)) gov_pages /\
    length gov_pages = 1%nat.
Proof.
  intros results. eexists. split.
  - eapply (@output_pages_have_bodies Sim.sim_builtins Sim.sim_libraries results).
    vm_compute. reflexivity.
  - reflexivity.
Defined.

Lemma every_result_is_accounted_witness :
  let results := [("/g", Some (Sim.page_doc "government" ∅));
                  ("/a", Some (Sim.page_doc "answer" {[ "body" := JStr "<p>a</p>" ]}));
                  ("/x", None); ("/e", Some ∅)] in
  exists gov_pages skipped,
    @process_results Sim.sim_builtins Sim.sim_libraries results [] ∅ =
      Returned (gov_pages, skipped) /\
    (length results =
     length (List.filter View.passed_over results) +
     (default 0 (skipped !! "government") +
      default 0 (skipped !! "mainstream_browse_page")) +
     length gov_pages)%nat.
Proof.
  intros results. eexists. eexists.
  split; [vm_compute; reflexivity|].
  eapply (@every_result_is_accounted Sim.sim_builtins Sim.sim_libraries results).
  vm_compute. reflexivity.
Defined.

(** ** More on the guide's parts (lines 121-129) *)

Section GuideFrame.
Context `{Builtins} `{Libraries}.


Lemma combine_parts_app (l1 l2 : list json) (acc : string) :
  combine_parts acc (l1 ++ l2) =
    match combine_parts acc l1 with
    | Ok s => combine_parts s l2
    | Raise e => Raise e
    end.
Proof.
  revert acc. induction l1 as [|part l1 IH]; intros acc; [reflexivity|].
  simpl. destruct (add_part acc part); simpl; [apply IH | reflexivity].
Qed.

Lemma add_part_bad (acc : string) (part : json) (e : exn) :
  View.bad_part part e -> add_part acc part = Raise e.
Proof.
  destruct part; simpl; try (now intros ->).
  intros (Ht & Hb & ->). rewrite Ht.
  destruct (d !! "body") as [[]|]; try reflexivity. now destruct (Hb s).
Qed.

(** X9: a guide with a part that is not an object, or whose non-empty
    body is not a string, is not skipped: the exception raised while the
    parts are merged ends the whole run with [sys.exit(1)]. *)
Theorem bad_part_ends_run (path : string) (response d : gmap string json)
  (pre post : list json) (bad : json) (e : exn) (rest : list result)
  (gov_pages : list GovPage) (skipped : gmap string nat) :
  get_is response "document_type" "guide" = true ->
  response !! "details" = Some (JDict d) ->
  d !! "parts" = Some (JList (pre ++ bad :: post)) ->
  Forall api_part pre ->
  View.bad_part bad e ->
  normalize_guide response = Raise e /\
  process_results ((path, Some response) :: rest) gov_pages skipped = Exited 1.
Proof.
  intros Hg Hd Hp Hpre Hbad.
  assert (Hn : normalize_guide response = Raise e).
  { unfold normalize_guide. rewrite Hg, Hd. simpl. rewrite Hp.
    rewrite bool_decide_eq_true_2 by eauto. simpl. rewrite Hd. simpl. rewrite Hp. simpl.
    rewrite combine_parts_app, (combine_parts_api _ _ Hpre). simpl.
    now rewrite (add_part_bad _ _ _ Hbad). }
  split; [exact Hn|].
  rewrite process_results_try;
    [| eapply get_is_nonempty; eauto | now apply guide_not_skipped].
  unfold try_page. now rewrite Hn.
Qed.

End GuideFrame.


Lemma bad_part_ends_run_witness :
  let d : gmap string json :=
    {[ "parts" := JList [Sim.part "One" "<p>1</p>"; JStr "two"; Sim.part "Three" "3"] ]} in
  @process_results Sim.sim_builtins Sim.sim_libraries
    [("/g", Some (Sim.page_doc "guide" d)); ("/x", None)] [] ∅ = Exited 1.
Proof.
  intros d.
  eapply (@bad_part_ends_run Sim.sim_builtins Sim.sim_libraries "/g"
            (Sim.page_doc "guide" d) d [Sim.part "One" "<p>1</p>"] [Sim.part "Three" "3"]
            (JStr "two") AttributeError).
  - vm_compute. reflexivity.
  - vm_compute. reflexivity.
  - vm_compute. reflexivity.
  - repeat constructor. eexists. split; [reflexivity|]. intros _. eexists.
    vm_compute. reflexivity.
  - reflexivity.
Defined.

(** ** More on the Synthesizer's batches (lines 79-105) *)

Section BatchFrame.
Context `{Synth.LanguageModel}.

Lemma process_batch_splice (pages : list GovPage) (start_idx bs : nat) (w : Synth.lm_world) :
  Synth.process_batch pages start_idx bs w =
    (take start_idx pages ++
       fst (each_page (take bs (drop start_idx pages)) w) ++
       drop (start_idx + bs) pages,
     seq start_idx (length (take bs (drop start_idx pages))),
     snd (each_page (take bs (drop start_idx pages)) w)).
Proof.
  destruct (Nat.le_gt_cases start_idx (length pages)) as [Hle|Hgt].
  - pose proof (process_batch_at (take start_idx pages) (drop start_idx pages) bs w) as E.
    rewrite take_drop, length_take, Nat.min_l in E by assumption.
    rewrite E, drop_drop. reflexivity.
  - unfold Synth.process_batch.
    replace (Nat.min (start_idx + bs) (length pages) - start_idx)%nat with 0%nat by lia.
    rewrite (drop_ge pages start_idx) by lia.
    rewrite (drop_ge pages (start_idx + bs)) by lia.
    rewrite take_nil, take_ge by lia. simpl. now rewrite app_nil_r.
Qed.

(** X10: [process_batch] works in place on the positions from
    [start_idx] up to [start_idx + batch_size], cut at the end of the
    list: it returns these positions, keeps the number of pages, leaves
    every page outside them as it was, and with a start at or past the
    end it does nothing at all. *)
Theorem process_batch_frame (pages : list GovPage) (start_idx bs : nat)
  (w : Synth.lm_world) :
  let pages' := fst (fst (Synth.process_batch pages start_idx bs w)) in
  let batch := snd (fst (Synth.process_batch pages start_idx bs w)) in
  length pages' = length pages /\
  batch = seq start_idx (Nat.min bs (length pages - start_idx)) /\
  (forall k, (k < start_idx \/ start_idx + bs <= k)%nat -> pages' !! k = pages !! k) /\
  ((length pages <= start_idx)%nat ->
   Synth.process_batch pages start_idx bs w = (pages, [], w)).
Proof.
  intros pages' batch. subst pages' batch. rewrite process_batch_splice. cbn [fst snd].
  pose proof (each_page_length (take bs (drop start_idx pages)) w) as Hl.
  split; [|split; [|split]].
  - rewrite !length_app, Hl, !length_take, !length_drop. lia.
  - now rewrite length_take, length_drop.
  - intros k Hk.
    destruct (Nat.le_gt_cases (length pages) k) as [Hge|Hlt].
    { rewrite (proj2 (lookup_ge_None pages k)) by assumption.
      apply lookup_ge_None.
      rewrite !length_app, Hl, !length_take, !length_drop. lia. }
    destruct Hk as [Hk|Hk].
    + rewrite lookup_app_l by (rewrite length_take; lia).
      apply lookup_take_lt. lia.
    + rewrite app_assoc, lookup_app_r
        by (rewrite length_app, Hl, !length_take, length_drop; lia).
      rewrite lookup_drop. f_equal.
      rewrite length_app, Hl, !length_take, length_drop. lia.
  - intros Hge. rewrite take_ge by assumption.
    rewrite (drop_ge pages start_idx) by assumption.
    rewrite (drop_ge pages (start_idx + bs)) by lia.
    rewrite take_nil. simpl. now rewrite app_nil_r.
Qed.

(** X11: on an empty input [main] still writes its file, with no
    record in it, and then fails with a division by zero while printing
    the averages; on any other input it ends normally. *)
Theorem main_ending (pages : list GovPage) (w : Synth.lm_world) :
  (pages = [] ->
   Synth.saved (Synth.main pages w) = [] /\
   Synth.slept (Synth.main pages w) = [] /\
   Synth.final_world (Synth.main pages w) = w /\
   Synth.ending (Synth.main pages w) = Uncaught ZeroDivisionError) /\
  (pages <> [] -> Synth.ending (Synth.main pages w) = Returned tt).
Proof.
  split; [intros ->; repeat split; reflexivity|].
  intros Hne. unfold Synth.main.
  destruct (main_loop_batches (batches (length pages) 10) 10 0 [] pages w []) as [E1 _];
    [lia | reflexivity | reflexivity |].
  change (range0 (length pages) 10)
    with ((fun k => k * 10)%nat <$> seq 0 (batches (length pages) 10)).
  cbn [app length seq Nat.add] in E1. rewrite E1.
  cbn [Synth.ending Synth.processed_pages].
  destruct pages; [contradiction | reflexivity].
Qed.

End BatchFrame.

Lemma main_ending_witness :
  @Synth.ending Sim.sim_model
    (@Synth.main Sim.sim_model [Sim.sim_page "A" (Some "bad")] 0%nat) = Returned tt.
Proof.
  apply (proj2 (@main_ending Sim.sim_model [Sim.sim_page "A" (Some "bad")] 0%nat)).
  discriminate.
Defined.

(** ** The counts by document type (scrape_urls.py lines 173-176) *)

Section CountTypes.

Lemma count_types_from (pages : list GovPage) :
  forall (m : gmap string nat) (t : string),
    foldl (fun (processed_types : gmap string nat) (page : GovPage) =>
             <[document_type page :=
                 (default 0 (processed_types !! document_type page) + 1)%nat]>
               processed_types) m pages !! t =
    match length (List.filter (fun page => String.eqb (document_type page) t) pages) with
    | O => m !! t
    | S n => Some (default 0 (m !! t) + S n)%nat
    end.
Proof.
  induction pages as [|page pages IH]; intros m t; [reflexivity|].
  cbn [foldl List.filter]. rewrite IH.
  destruct (String.eqb (document_type page) t) eqn:E.
  - apply String.eqb_eq in E. subst t. cbn [length]. rewrite lookup_insert_eq. simpl.
    destruct (length (List.filter
                (fun page0 => String.eqb (document_type page0) (document_type page)) pages));
      f_equal; lia.
  - apply String.eqb_neq in E. now rewrite lookup_insert_ne.
Qed.

(** X12: the summary by document type has an entry exactly for the
    types that occur among the pages, and the entry is the number of
    pages of that type. *)
Theorem count_types_counts (pages : list GovPage) (t : string) :
  Report.count_types pages !! t =
    match length (List.filter (fun page => String.eqb (document_type page) t) pages) with
    | O => None
    | S n => Some (S n)
    end.
Proof.
  unfold Report.count_types. rewrite count_types_from, lookup_empty. reflexivity.
Qed.

End CountTypes.

(** ** The snippet totals (generate_synthetic_data.py lines 207-212) *)

Section SnippetTotals.
Context `{Synth.LanguageModel}.

Lemma sum_snippets_app (l1 l2 : list GovPage) :
  sum_list (Report.snippet_count <$> (l1 ++ l2)) =
    (sum_list (Report.snippet_count <$> l1) + sum_list (Report.snippet_count <$> l2))%nat.
Proof.
  induction l1 as [|p l1 IH]; [reflexivity|].
  rewrite <- app_comm_cons, !fmap_cons. cbn [sum_list sum_list_with].
  fold (sum_list (Report.snippet_count <$> l1 ++ l2)).
  fold (sum_list (Report.snippet_count <$> l1)). rewrite IH. lia.
Qed.

Lemma count_snippets_total (batch : list GovPage) :
  forall b t,
    snd (Report.count_snippets batch b t) =
      (t + sum_list (Report.snippet_count <$> batch))%nat.
Proof.
  induction batch as [|page batch IH]; intros b t; [simpl; lia|].
  cbn [Report.count_snippets].
  change (sum_list (Report.snippet_count <$> page :: batch))
    with (Report.snippet_count page + sum_list (Report.snippet_count <$> batch))%nat.
  set (n := Report.snippet_count page).
  assert (Hn : n = Report.snippet_count page) by reflexivity.
  unfold Report.snippet_count in Hn.
  destruct (synthetic_data page) as [sd|];
    [destruct (article_snippets sd) as [s|]|]; rewrite IH; lia.
Qed.

Lemma main_loop_totals_run (starts : list nat) :
  forall (bs : nat) (r : Synth.run) (t : nat),
    fst (Report.main_loop_totals starts bs r t) = Synth.main_loop starts bs r.
Proof.
  induction starts as [|i later IH]; intros bs r t; [reflexivity|].
  cbn [Report.main_loop_totals Synth.main_loop].
  destruct (Synth.process_batch (Synth.run_pages r) i bs (Synth.run_world r))
    as [[pages1 batch] w1].
  destruct (i + bs <? length pages1)%nat; apply IH.
Qed.

Lemma dump_middle (chunk : list GovPage) :
  forall before after,
    Synth.dump (before ++ chunk ++ after) (seq (length before) (length chunk)) = chunk.
Proof.
  unfold Synth.dump.
  induction chunk as [|page chunk IH]; intros before after; [reflexivity|].
  cbn [length seq omap list_omap].
  change ((page :: chunk) ++ after) with (page :: chunk ++ after).
  rewrite (list_lookup_middle before (chunk ++ after) page (length before) eq_refl).
  f_equal.
  replace (before ++ page :: chunk ++ after)
    with ((before ++ [page]) ++ chunk ++ after) by now rewrite <- app_assoc.
  replace (S (length before)) with (length (before ++ [page]))
    by (rewrite length_app; simpl; lia).
  apply IH.
Qed.

Lemma totals_batches (m : nat) :
  forall (bs j : nat) (before todo : list GovPage) (w : Synth.lm_world) (pz : list Q)
         (t : nat),
    (0 < bs)%nat ->
    m = batches (length todo) bs ->
    length before = (j * bs)%nat ->
    snd (Report.main_loop_totals ((fun k => k * bs)%nat <$> seq j m) bs
           {| Synth.run_pages := before ++ todo;
              Synth.processed_pages := seq 0 (length before);
              Synth.run_world := w; Synth.pauses := pz |} t) =
      (t + sum_list (Report.snippet_count <$> fst (fst (one_by_one bs 0 todo w))))%nat.
Proof.
  induction m as [|m IH]; intros bs j before todo w pz t Hbs Hm Hlen.
  - symmetry in Hm. apply batches_zero in Hm; [|assumption].
    destruct todo; [|discriminate]. simpl. lia.
  - assert (Htodo : (0 < length todo)%nat).
    { destruct todo; [|simpl; lia]. simpl in Hm. rewrite batches_nil in Hm; lia. }
    cbn [seq fmap list_fmap Report.main_loop_totals]. rewrite <- Hlen.
    cbn [Synth.run_pages Synth.run_world Synth.processed_pages Synth.pauses].
    rewrite process_batch_at.
    rewrite (one_by_one_chunk bs todo 0 w Hbs), Nat.sub_0_r.
    pose proof (each_page_length (take bs todo) w) as Hchunk.
    destruct (each_page (take bs todo) w) as [chunk' w1]. cbn [fst snd] in *.
    rewrite <- Hchunk, dump_middle, count_snippets_total.
    rewrite length_take in Hchunk.
    replace (length before + bs <? length (before ++ chunk' ++ drop bs todo))%nat
      with (bs <? length todo)%nat.
    2:{ rewrite !length_app, length_drop, Hchunk.
        destruct (Nat.ltb_spec bs (length todo));
          destruct (Nat.ltb_spec (length before + bs)
                      (length before + (Nat.min bs (length todo) + (length todo - bs))));
          try reflexivity; lia. }
    destruct (Nat.ltb_spec bs (length todo)) as [Hlt|Hge].
    + destruct (drop bs todo) as [|r rest] eqn:Ed.
      { apply (f_equal length) in Ed. rewrite length_drop in Ed. simpl in Ed. lia. }
      rewrite <- Ed.
      assert (Hm' : m = batches (length (drop bs todo)) bs).
      { rewrite length_drop. rewrite (batches_more _ _ Hbs Hlt) in Hm. lia. }
      rewrite app_assoc.
      replace (seq 0 (length before) ++ seq (length before) (length chunk'))
        with (seq 0 (length (before ++ chunk'))).
      2:{ rewrite length_app, seq_app. reflexivity. }
      rewrite (IH bs (S j) (before ++ chunk') (drop bs todo) (Synth.lm_sleep 1 w1)
                 (pz ++ [1%Q]) _ Hbs Hm') by (rewrite length_app, Hchunk; lia).
      destruct (one_by_one bs 0 (drop bs todo) (Synth.lm_sleep 1 w1)) as [[rest' w2] ps].
      cbn [fst snd]. rewrite sum_snippets_app. lia.
    + assert (Ed : drop bs todo = []) by (apply drop_ge; lia).
      rewrite Ed. rewrite (batches_one _ _ Htodo Hge) in Hm.
      injection Hm as ->. cbn [seq fmap list_fmap Report.main_loop_totals fst snd].
      reflexivity.
Qed.

(** X13: the loop that also counts snippets makes the same run as the
    loop of [main], and the total it prints at the end is the sum, over
    the saved records, of the snippets each one carries. *)
Theorem total_snippets_is_sum (pages : list GovPage) (w : Synth.lm_world) :
  fst (Report.main_loop_totals (range0 (length pages) 10) 10
         {| Synth.run_pages := pages; Synth.processed_pages := [];
            Synth.run_world := w; Synth.pauses := [] |} 0) =
    Synth.main_loop (range0 (length pages) 10) 10
      {| Synth.run_pages := pages; Synth.processed_pages := [];
         Synth.run_world := w; Synth.pauses := [] |} /\
  Report.total_snippets pages w =
    sum_list (Report.snippet_count <$> Synth.saved (Synth.main pages w)).
Proof.
  split; [apply main_loop_totals_run|].
  rewrite (proj1 (main_one_by_one pages w)). unfold Report.total_snippets.
  change (range0 (length pages) 10)
    with ((fun k => k * 10)%nat <$> seq 0 (batches (length pages) 10)).
  apply (totals_batches (batches (length pages) 10) 10 0 [] pages w [] 0);
    [lia | reflexivity | reflexivity].
Qed.

(** X14: the per-batch figure is not a sum: after the loop over a batch
    [batch_snippets] is the count of the last record of the batch that
    carries snippets, whatever the records before it carry. *)
Theorem batch_snippets_is_last (pre post : list GovPage) (page : GovPage)
  (sd : SyntheticData) (s : Models.ArticleSnippets) (b t : nat) :
  synthetic_data page = Some sd ->
  article_snippets sd = Some s ->
  Forall (fun q => forall sd' s', synthetic_data q = Some sd' ->
                                  article_snippets sd' <> Some s') post ->
  fst (Report.count_snippets (pre ++ page :: post) b t) = length (Models.snippets s).
Proof.
  intros Hsd Hs Hpost. revert b t.
  induction pre as [|q pre IH]; intros b t.
  - simpl. rewrite Hsd, Hs. generalize (t + length (Models.snippets s))%nat.
    generalize (length (Models.snippets s)).
    induction Hpost as [|q post Hq _ IHp]; intros n t'; [reflexivity|].
    simpl. destruct (synthetic_data q) as [sd'|]; [|apply IHp].
    destruct (article_snippets sd') as [s'|] eqn:E; [|apply IHp].
    now destruct (Hq sd' s' eq_refl).
  - simpl. destruct (synthetic_data q) as [sd'|]; [|apply IH].
    destruct (article_snippets sd'); apply IH.
Qed.

End SnippetTotals.

Lemma batch_snippets_is_last_witness :
  let two := {| poorly_written_article := "x";
                article_snippets :=
                  Some {| Models.snippets :=
                            [ {| Models.well_written_snippet := "a";
                                 Models.badly_written_snippet := "b" |};
                              {| Models.well_written_snippet := "c";
                                 Models.badly_written_snippet := "d" |} ] |} |} in
  let one := {| poorly_written_article := "y";
                article_snippets :=
                  Some {| Models.snippets :=
                            [ {| Models.well_written_snippet := "e";
                                 Models.badly_written_snippet := "f" |} ] |} |} in
  fst (Report.count_snippets
         [set_synthetic_data (Sim.sim_page "A" (Some "a")) (Some two);
          set_synthetic_data (Sim.sim_page "B" (Some "b")) (Some one);
          Sim.sim_page "C" None] 0 0) = 1%nat.
Proof.
  intros two one.
  apply (batch_snippets_is_last
           [set_synthetic_data (Sim.sim_page "A" (Some "a")) (Some two)]
           [Sim.sim_page "C" None]
           (set_synthetic_data (Sim.sim_page "B" (Some "b")) (Some one))
           one
           {| Models.snippets :=
                [ {| Models.well_written_snippet := "e";
                     Models.badly_written_snippet := "f" |} ] |} 0 0).
  - reflexivity.
  - reflexivity.
  - repeat constructor. intros sd' s' E. discriminate.
Defined.

(** ** What the Fetcher does to the outside (lines 44-77) *)

Section Events.
Context `{Network}.

Lemma allowed_weaken (l1 l2 : list string) (e : event) :
  l1 ⊆ l2 -> View.allowed l1 e -> View.allowed l2 e.
Proof.
  intros Hsub. destruct e; simpl; try tauto.
  intros (path & Hin & ->). exists path. split; [apply Hsub, Hin | reflexivity].
Qed.

Lemma query_path_events (path : string) (st : state) :
  exists extra,
    st_trace (snd (query_path path st)) = st_trace st ++ extra /\
    Forall (View.allowed [path]) extra /\
    (1 <= length (View.gets extra) <= 2)%nat.
Proof.
  rewrite query_path_state, get_with_retry_trace.
  assert (Hg : View.allowed [path] (EvGet (api_url path))).
  { exists path. split; [apply list_elem_of_here | reflexivity]. }
  destruct (first_is_429 path st); eexists; (split; [reflexivity|]); split.
  - apply Forall_cons_2; [exact Hg|]. apply Forall_cons_2; [now left|].
    apply Forall_cons_2; [exact Hg | constructor].
  - simpl. lia.
  - apply Forall_cons_2; [exact Hg | constructor].
  - simpl. lia.
Qed.

Lemma gets_app (l1 l2 : list event) : View.gets (l1 ++ l2) = View.gets l1 ++ View.gets l2.
Proof. apply omap_app. Qed.

Lemma query_batch_events (batch : list string) :
  forall (results : list result) (st : state),
    exists extra,
      st_trace (snd (query_batch batch results st)) = st_trace st ++ extra /\
      Forall (View.allowed batch) extra /\
      (length (View.gets extra) <= 2 * length batch)%nat /\
      ((exists rs, fst (query_batch batch results st) = Ok rs) ->
       (length batch <= length (View.gets extra))%nat).
Proof.
  induction batch as [|path batch IH]; intros results st.
  - exists []. simpl. rewrite app_nil_r. repeat split; auto.
  - simpl. destruct (query_path_events path st) as (e1 & Ht1 & Ha1 & Hn1).
    destruct (query_path path st) as [[r|e] st1]; simpl in *.
    + destruct (IH (results ++ [r]) st1) as (e2 & Ht2 & Ha2 & Hn2 & Hok2).
      exists (e1 ++ e2). rewrite Ht2, Ht1, <- app_assoc. split; [reflexivity|].
      split; [|split].
      * apply Forall_app. split.
        -- eapply Forall_impl; [exact Ha1|]. intros e. apply allowed_weaken.
           intros x Hx. apply list_elem_of_In in Hx. apply list_elem_of_In.
           destruct Hx as [<-|[]]. now left.
        -- eapply Forall_impl; [exact Ha2|]. intros e. apply allowed_weaken.
           intros x Hx. apply list_elem_of_In in Hx. apply list_elem_of_In. now right.
      * rewrite gets_app, length_app. lia.
      * intros Hok. specialize (Hok2 Hok). rewrite gets_app, length_app. lia.
    + exists e1. split; [exact Ht1|]. split; [|split].
      * eapply Forall_impl; [exact Ha1|]. intros e0. apply allowed_weaken.
        intros x Hx. apply list_elem_of_In in Hx. apply list_elem_of_In.
        destruct Hx as [<-|[]]. now left.
      * lia.
      * intros [rs Hrs]. discriminate.
Qed.

Lemma throttle_events {L : ClockLaws} (batch_start : Q) (st : state) (paths : list string) :
  (batch_start <= clock (st_world st))%Q ->
  exists extra,
    st_trace (throttle batch_start st) = st_trace st ++ extra /\
    Forall (View.allowed paths) extra /\ View.gets extra = [].
Proof.
  intros Hle. unfold throttle.
  destruct (Qlt_le_dec (clock (st_world st) - batch_start) 1) as [Hlt|Hge].
  - eexists. split; [reflexivity|]. split; [|reflexivity].
    apply Forall_cons_2; [|constructor]. right. split; lra.
  - exists []. rewrite app_nil_r. split; [reflexivity|]. split; [constructor | reflexivity].
Qed.

Lemma slice_subseteq (paths : list string) (i j : nat) : slice paths i j ⊆ paths.
Proof.
  unfold slice. intros x Hx. apply (subseteq_drop i paths), (subseteq_take (j - i)), Hx.
Qed.

Lemma batch_loop_events {L : ClockLaws} (starts : list nat) :
  forall (paths : list string) (bs : nat) (results : list result) (st : state),
    exists extra,
      st_trace (snd (batch_loop starts paths bs results st)) = st_trace st ++ extra /\
      Forall (View.allowed paths) extra /\
      (length (View.gets extra) <=
       2 * length (concat ((fun i => slice paths i (i + bs)) <$> starts)))%nat /\
      ((exists rs, fst (batch_loop starts paths bs results st) = Ok rs) ->
       (length (concat ((fun i => slice paths i (i + bs)) <$> starts)) <=
        length (View.gets extra))%nat).
Proof.
  induction starts as [|i later IH]; intros paths bs results st.
  - exists []. simpl. rewrite app_nil_r. repeat split; auto.
  - cbn [batch_loop fmap list_fmap concat]. rewrite length_app.
    set (st0 := log (EvBatchStart (clock (st_world st))) st).
    assert (Hw0 : st_world st0 = st_world st) by reflexivity.
    assert (Ht0 : st_trace st0 = st_trace st ++ [EvBatchStart (clock (st_world st))])
      by reflexivity.
    clearbody st0.
    destruct (query_batch_events (slice paths i (i + bs)) results st0)
      as (e1 & Ht1 & Ha1 & Hn1 & Hok1).
    destruct (query_batch_clock (slice paths i (i + bs)) results st0) as [Hc _].
    rewrite Hw0 in Hc.
    assert (Ha1' : Forall (View.allowed paths) e1).
    { eapply Forall_impl; [exact Ha1|]. intros e. apply allowed_weaken, slice_subseteq. }
    destruct (query_batch (slice paths i (i + bs)) results st0) as [[results1|e] st1];
      cbn [fst snd] in *.
    + destruct (throttle_events (clock (st_world st)) st1 paths Hc) as (e2 & Ht2 & Ha2 & Hg2).
      destruct (IH paths bs results1 (throttle (clock (st_world st)) st1))
        as (e3 & Ht3 & Ha3 & Hn3 & Hok3).
      exists ([EvBatchStart (clock (st_world st))] ++ e1 ++ e2 ++ e3).
      rewrite Ht3, Ht2, Ht1, Ht0, <- !app_assoc. split; [reflexivity|].
      split; [|split].
      * apply Forall_app. split; [repeat constructor|].
        apply Forall_app. split; [exact Ha1'|]. apply Forall_app. now split.
      * rewrite !gets_app, !length_app, Hg2. simpl. lia.
      * intros Hok. specialize (Hok3 Hok).
        assert (length (slice paths i (i + bs)) <= length (View.gets e1))%nat by eauto.
        rewrite !gets_app, !length_app, Hg2. simpl. lia.
    + exists ([EvBatchStart (clock (st_world st))] ++ e1).
      rewrite Ht1, Ht0, <- !app_assoc. split; [reflexivity|]. split; [|split].
      * apply Forall_app. split; [repeat constructor | exact Ha1'].
      * rewrite gets_app, length_app. simpl. lia.
      * intros [rs Hrs]. discriminate.
Qed.

(** X15: the Fetcher only requests the API URLs of the paths it was
    given, and it only sleeps the five seconds of a retry or the rest of
    a second between batches; it requests each path at most twice, and at
    least once when the query returns. *)
Theorem fetcher_keeps_to_its_paths {L : ClockLaws} (paths : list string) (bs : nat)
  (w : world) :
  let run := batch_query_govuk_api paths bs {| st_world := w; st_trace := [] |} in
  Forall (View.allowed paths) (st_trace (snd run)) /\
  (length (View.gets (st_trace (snd run))) <= 2 * length paths)%nat /\
  ((exists rs, fst run = Ok rs) ->
   (length paths <= length (View.gets (st_trace (snd run))))%nat).
Proof.
  intros run. subst run. unfold batch_query_govuk_api.
  destruct bs as [|bs']; [simpl; split; [constructor|split; [lia|intros [rs Hrs]; discriminate]]|].
  destruct (batch_loop_events (range0 (length paths) (S bs')) paths (S bs') []
              {| st_world := w; st_trace := [] |}) as (extra & Ht & Ha & Hn & Hok).
  rewrite slices_cover in Hn, Hok by lia.
  rewrite Ht. simpl. split; [exact Ha|]. split; [exact Hn | exact Hok].
Qed.

End Events.

Lemma fetcher_keeps_to_its_paths_witness :
  let paths := ["/a"; "/b"] in
  Forall (View.allowed paths)
    (st_trace (snd (@batch_query_govuk_api Sim.sim_network paths 10
       (Sim.sim_state [GetResponse {| status_code := 429; json_body := None |}])))).
Proof.
  intros paths.
  apply (@fetcher_keeps_to_its_paths Sim.sim_network sim_clock_laws paths 10
           ({| Sim.replies := [GetResponse {| status_code := 429; json_body := None |}];
               Sim.now := 0 |} : @world Sim.sim_network)).
Defined.

(** ** Running the merge of a guide again *)

Section MergeTwice.
Context `{Builtins}.

(** X16: merging the parts of a guide a second time changes nothing:
    the parts are still in the details and give the same body again. *)
Theorem normalize_guide_idempotent (response response' : gmap string json) :
  normalize_guide response = Ok response' ->
  normalize_guide response' = Ok response'.
Proof.
  unfold normalize_guide at 1.
  destruct (get_is response "document_type" "guide") eqn:Eg.
  2:{ intros [= <-]. unfold normalize_guide. now rewrite Eg. }
  destruct (contains "parts" (default (JDict ∅) (response !! "details")))
    as [[|]|e] eqn:Ec; simpl; try discriminate.
  2:{ intros [= <-]. unfold normalize_guide. now rewrite Eg, Ec. }
  destruct (response !! "details") as [details|] eqn:Ed; simpl; [|discriminate].
  destruct (getitem details "parts") as [ps|e] eqn:Ep; simpl; [|discriminate].
  destruct (iterate ps) as [l|e] eqn:El; simpl; [|discriminate].
  destruct (combine_parts "" l) as [s|e] eqn:Es; simpl; [|discriminate].
  destruct details as [| | | | |d]; try discriminate.
  intros [= <-].
  assert (Hp : d !! "parts" = Some ps).
  { simpl in Ep. destruct (d !! "parts"); [now injection Ep as -> | discriminate]. }
  assert (Hg : get_is (<["details" := JDict (<["body" := JStr s]> d)]> response)
                 "document_type" "guide" = true).
  { unfold get_is in *. now rewrite lookup_insert_ne. }
  unfold normalize_guide. rewrite Hg, lookup_insert_eq. simpl.
  rewrite lookup_insert_ne, Hp by discriminate.
  rewrite bool_decide_eq_true_2 by eauto. simpl.
  rewrite lookup_insert_eq. simpl. rewrite lookup_insert_ne, Hp by discriminate. simpl.
  rewrite El. simpl. rewrite Es. simpl.
  now rewrite !insert_insert_eq.
Qed.

End MergeTwice.

Lemma normalize_guide_idempotent_witness :
  let d : gmap string json :=
    {[ "parts" := JList [Sim.part "One" "<p>1</p>"; Sim.part "Two" "<p>2</p>"] ]} in
  let response : gmap string json :=
    {[ "document_type" := JStr "guide"; "details" := JDict d ]} in
  let merged := nl +:+ nl +:+ "## One" +:+ nl +:+ nl +:+ "<p>1</p>" +:+
                nl +:+ nl +:+ "## Two" +:+ nl +:+ nl +:+ "<p>2</p>" in
  let response' := <["details" := JDict (<["body" := JStr merged]> d)]> response in
  @normalize_guide Sim.sim_builtins response' = Ok response'.
Proof.
  intros d response merged response'.
  apply (@normalize_guide_idempotent Sim.sim_builtins response).
  vm_compute. reflexivity.
Defined.

(** ** A corpus without bodies *)

Section NoBodies.
Context `{Synth.LanguageModel}.

Lemma one_by_one_no_body (bs : nat) (pages : list GovPage) :
  Forall (fun page => has_body page = false) pages ->
  forall c w,
    fst (fst (one_by_one bs c pages w)) = pages /\
    snd (fst (one_by_one bs c pages w)) =
      Nat.iter (length (snd (one_by_one bs c pages w))) (Synth.lm_sleep 1) w.
Proof.
  induction 1 as [|page rest Hp _ IH]; intros c w; [now split|].
  cbn [one_by_one]. rewrite (process_page_no_body _ _ Hp).
  destruct rest as [|r rest']; [now split|].
  destruct (S c =? bs)%nat.
  - destruct (IH 0%nat (Synth.lm_sleep 1 w)) as [E1 E2].
    destruct (one_by_one bs 0 (r :: rest') (Synth.lm_sleep 1 w)) as [[rest'' w2] ps].
    cbn [fst snd length] in *. split; [now rewrite E1|].
    rewrite E2. symmetry. apply Nat.iter_succ_r.
  - destruct (IH (S c) w) as [E1 E2].
    destruct (one_by_one bs (S c) (r :: rest') w) as [[rest'' w2] ps].
    cbn [fst snd] in *. split; [now rewrite E1 | exact E2].
Qed.

(** X17: on records none of which has a body the Synthesizer asks the
    language model nothing: it saves the input as it is and the only
    thing it does is to sleep between the batches. *)
Theorem no_bodies_no_calls (pages : list GovPage) (w : Synth.lm_world) :
  Forall (fun page => has_body page = false) pages ->
  Synth.saved (Synth.main pages w) = pages /\
  Synth.final_world (Synth.main pages w) =
    Nat.iter (batches (length pages) 10 - 1) (Synth.lm_sleep 1) w.
Proof.
  intros Hall.
  destruct (main_one_by_one pages w) as (E1 & E2 & E3).
  destruct (one_by_one_no_body 10 pages Hall 0%nat w) as [F1 F2].
  destruct (main_loop_batches (batches (length pages) 10) 10 0 [] pages w []) as [_ G];
    [lia | reflexivity | reflexivity |].
  rewrite E1, E3, F1, F2, G, length_replicate. now split.
Qed.

End NoBodies.

Lemma no_bodies_no_calls_witness :
  let pages := [Sim.sim_page "A" None; Sim.sim_page "B" (Some "")] in
  @Synth.saved Sim.sim_model (@Synth.main Sim.sim_model pages 0%nat) = pages.
Proof.
  intros pages.
  apply (@no_bodies_no_calls Sim.sim_model pages 0%nat).
  repeat constructor.
Defined.

Lemma process_batch_frame_witness :
  let pages := [Sim.sim_page "A" (Some "text")] in
  @Synth.process_batch Sim.sim_model pages 10 10 0%nat = (pages, [], 0%nat).
Proof.
  intros pages.
  apply (@process_batch_frame Sim.sim_model pages 10 10 0%nat).
  simpl. lia.
Defined.
